(** * go-chart: range resolution, layout and draw sequencing of [Chart.Render]

    A shallow embedding of [chart.go].  Go's [float64] is the IEEE-754
    binary64 format, taken here as [spec_float] with 53 bits of precision;
    mutable [Range] objects live in an explicit store so that the sharing
    between the caller's chart and the copy [Render] works on is visible;
    calls on the renderer are recorded as a trace of events. *)

From Stdlib Require Import String.
From Stdlib Require Import ZArith List Bool Lia.
From Stdlib Require Import SpecFloat.
Import ListNotations.
Local Open Scope Z_scope.

(** ** float64 and the functions of Go's [math] package used by the chart *)

Module F64.

Definition float64 : Type := spec_float.

Definition prec : Z := 53.
Definition emax : Z := 1024.

Definition zero : float64 := S754_zero false.
Definition NaN : float64 := S754_nan.
Definition Inf (neg : bool) : float64 := S754_infinity neg.

(** [math.MaxFloat64] = (2^53 - 1) * 2^971. *)
Definition MaxFloat64 : float64 := S754_finite false 9007199254740991 971.

Definition neg (x : float64) : float64 := SFopp x.
Definition sub (x y : float64) : float64 := SFsub prec emax x y.
Definition eqb (x y : float64) : bool := SFeqb x y.
Definition ltb (x y : float64) : bool := SFltb x y.
Definition leb (x y : float64) : bool := SFleb x y.

(** An integer as a float64 (rounded to nearest even when it needs to be). *)
Definition of_Z (n : Z) : float64 := binary_normalize prec emax n 0 false.

Definition IsNaN (x : float64) : bool :=
  match x with S754_nan => true | _ => false end.

(** [math.IsInf(f, sign)]: sign > 0 asks for +Inf, sign < 0 for -Inf,
    sign = 0 for either. *)
Definition IsInf (x : float64) (sign : Z) : bool :=
  match x with
  | S754_infinity s => if s then (sign <=? 0) else (0 <=? sign)
  | _ => false
  end.

Definition Signbit (x : float64) : bool :=
  match x with
  | S754_zero s | S754_infinity s | S754_finite s _ _ => s
  | S754_nan => false
  end.

(** [math.Min]: -Inf wins over NaN, NaN over the rest, and -0 over +0. *)
Definition Min (x y : float64) : float64 :=
  if IsInf x (-1) || IsInf y (-1) then Inf true
  else if IsNaN x || IsNaN y then NaN
  else if eqb x zero && eqb x y then (if Signbit x then x else y)
  else if ltb x y then x else y.

(** [math.Max]: +Inf wins over NaN, NaN over the rest, and +0 over -0. *)
Definition Max (x y : float64) : float64 :=
  if IsInf x 1 || IsInf y 1 then Inf false
  else if IsNaN x || IsNaN y then NaN
  else if eqb x zero && eqb x y then (if Signbit x then y else x)
  else if ltb y x then x else y.

(** The order of float64 as a proposition; it never holds of a NaN. *)
Definition le (x y : float64) : Prop := leb x y = true.

Definition is_num (x : float64) : Prop := IsNaN x = false.

(** Neither NaN nor an infinity. *)
Definition finite64 (x : float64) : Prop :=
  le (neg MaxFloat64) x /\ le x MaxFloat64.

End F64.

Import F64.

(** Go's [int] on a 64-bit platform: arithmetic wraps around modulo 2^64. *)
Definition wrap (z : Z) : Z := (z + 2 ^ 63) mod 2 ^ 64 - 2 ^ 63.

(** ** Data model *)

(** A [*truetype.Font]: a pointer, [None] for nil. *)
Definition FontRef : Type := option nat.

(** A colour value; 0 stands for the zero (unset) colour. *)
Definition Color : Type := Z.

(** A value formatter is a Go function value, nil when absent. *)
Definition ValueFormatter : Type := float64 -> string.

(** Modelled from the spec: the type [Box] (box.go is not part of the
    sources): an axis-aligned rectangle in pixel space (top, left, right,
    bottom); chart.go builds it with the fields [Top], [Left], [Right] and
    [Bottom]. *)
Record Box := mkBox { Top : Z; Left : Z; Right : Z; Bottom : Z }.

Definition zeroBox : Box := mkBox 0 0 0 0.

(** Modelled from the spec: the type [Style] (style.go is not part of the
    sources): a bag of optional visual attributes, the zero value of an
    attribute meaning that it is unset.  The fields are those that chart.go
    reads or writes. *)
Record Style := mkStyle {
  Show : bool;
  Padding : Box;
  StrokeWidth : float64;
  StrokeColor : Color;
  FillColor : Color;
  FontSize : float64;
  FontColor : Color;
  StyleFont : FontRef
}.

Definition zeroStyle : Style :=
  mkStyle false zeroBox zero 0 0 zero 0 None.

(** Modelled from the spec: the type [Tick] (tick.go is not part of the
    sources): an axis value and its label. *)
Record Tick := mkTick { Value : float64; Label : string }.

(** Modelled from the spec: the type [YAxisType] and its two constants
    (their declaration is not part of the sources): a series, and a Y axis,
    is either primary or secondary. *)
Inductive YAxisType := YAxisPrimary | YAxisSecondary.

Definition YAxisType_eqb (a b : YAxisType) : bool :=
  match a, b with
  | YAxisPrimary, YAxisPrimary | YAxisSecondary, YAxisSecondary => true
  | _, _ => false
  end.

(** A [Range] is an interface value holding a pointer to a mutable range
    object, or nil: an address in the store of range objects. *)
Definition loc : Type := nat.

(** The fields of [XAxis] that chart.go reads (the declaration, in xaxis.go,
    is not part of the sources). *)
Record XAxis := mkXAxis {
  xStyle : Style;
  xValueFormatter : option ValueFormatter;
  xRange : option loc;
  xTicks : list Tick
}.

(** The fields of [YAxis] that chart.go reads or writes (the declaration, in
    yaxis.go, is not part of the sources). *)
Record YAxis := mkYAxis {
  yStyle : Style;
  AxisType : YAxisType;
  yValueFormatter : option ValueFormatter;
  yRange : option loc;
  yTicks : list Tick
}.

(** A series, seen through the interfaces [chart.go] probes it with: the
    [Series] methods [GetStyle] and [GetYAxis], and the optional capabilities
    [BoundedValueProvider] ([Len], [GetBoundedValue]), [ValueProvider] ([Len],
    [GetValue]), [ValueFormatterProvider] and the concrete type
    [AnnotationSeries] (whose [Style] and [YAxis] fields are what its
    [GetStyle] and [GetYAxis] return). *)
Record Series := mkSeries {
  sStyle : Style;
  sYAxis : YAxisType;
  sBounded : option (list (float64 * float64 * float64));
  sValues : option (list (float64 * float64));
  sFormatters : option (option ValueFormatter * option ValueFormatter);
  sAnnotation : bool
}.

(** An overlay element is a caller-supplied function value; it is known here
    by a name only. *)
Definition Renderable : Type := nat.

(** [Chart].  The fields [XAxis], [YAxis], [YAxisSecondary] and [Series]
    carry a [c] in front, their names being those of types and of a
    constant. *)
Record Chart := mkChart {
  Title : string;
  TitleStyle : Style;
  Width : Z;
  Height : Z;
  DPI : float64;
  Background : Style;
  Canvas : Style;
  cXAxis : XAxis;
  cYAxis : YAxis;
  cYAxisSecondary : YAxis;
  Font : FontRef;
  defaultFont : FontRef;
  cSeries : list Series;
  Elements : list Renderable
}.

Inductive error :=
| ErrNew (msg : string)        (* errors.New(msg) *)
| ErrForeign (tag : nat).       (* an error handed back by a collaborator *)

(** *** Box operations *)

(** Modelled from the spec: [Box.Width] (box.go is not part of the
    sources): a box is an axis-aligned rectangle (top, left, right, bottom)
    with derived width and height. *)
Definition BoxWidth (b : Box) : Z := Right b - Left b.

(** Modelled from the spec: [Box.Height] (box.go is not part of the
    sources): the derived height of the rectangle. *)
Definition BoxHeight (b : Box) : Z := Bottom b - Top b.

(** Modelled from the spec: [Box.Clone] (box.go is not part of the
    sources): a box is a value; its clone has the same four sides. *)
Definition Clone (b : Box) : Box := mkBox (Top b) (Left b) (Right b) (Bottom b).

(** Modelled from the spec: [Box.Grow] (box.go is not part of the sources):
    a box is grown to enclose a label or annotation footprint. *)
Definition Grow (b other : Box) : Box :=
  mkBox (Z.min (Top b) (Top other)) (Z.min (Left b) (Left other))
        (Z.max (Right b) (Right other)) (Z.max (Bottom b) (Bottom other)).

(** Modelled from the spec: [Box.OuterConstrain] (box.go is not part of the
    sources): where the grown box [other] exceeds the outer [bounds], the
    inner box [b] is shrunk on that side by exactly the excess. *)
Definition OuterConstrain (b bounds other : Box) : Box :=
  mkBox
    (if Top other <? Top bounds then Top b + (Top bounds - Top other) else Top b)
    (if Left other <? Left bounds then Left b + (Left bounds - Left other) else Left b)
    (if Right bounds <? Right other then Right b - (Right other - Right bounds) else Right b)
    (if Bottom bounds <? Bottom other then Bottom b - (Bottom other - Bottom bounds) else Bottom b).

(** Modelled from the spec: [Box.GetTop] (box.go is not part of the
    sources): an unset (zero) side of a padding inherits the default handed
    in. *)
Definition GetTop (b : Box) (d : Z) : Z := if Top b =? 0 then d else Top b.

(** Modelled from the spec: [Box.GetLeft] (box.go is not part of the
    sources), as [GetTop]. *)
Definition GetLeft (b : Box) (d : Z) : Z := if Left b =? 0 then d else Left b.

(** Modelled from the spec: [Box.GetRight] (box.go is not part of the
    sources), as [GetTop]. *)
Definition GetRight (b : Box) (d : Z) : Z := if Right b =? 0 then d else Right b.

(** Modelled from the spec: [Box.GetBottom] (box.go is not part of the
    sources), as [GetTop]. *)
Definition GetBottom (b : Box) (d : Z) : Z := if Bottom b =? 0 then d else Bottom b.

(** Modelled from the spec: [Style.IsZero] (style.go is not part of the
    sources): a style is unset when every attribute has its zero value. *)
Definition StyleIsZero (s : Style) : bool :=
  negb (Show s)
  && (Top (Padding s) =? 0) && (Left (Padding s) =? 0)
  && (Right (Padding s) =? 0) && (Bottom (Padding s) =? 0)
  && eqb (StrokeWidth s) zero && (StrokeColor s =? 0) && (FillColor s =? 0)
  && eqb (FontSize s) zero && (FontColor s =? 0)
  && match StyleFont s with None => true | Some _ => false end.

(** *** Range objects and their store *)

(** Modelled from the spec: the type [ContinuousRange] behind the [Range]
    interface (range.go is not part of the sources): a range holds a
    minimum, a maximum and a pixel-domain length. *)
Record ContinuousRange := mkRange {
  RMin : float64;
  RMax : float64;
  Domain : Z
}.

(** The zero value [ContinuousRange{}]. *)
Definition zeroRange : ContinuousRange := mkRange zero zero 0.

(** Modelled from the spec: [Range.GetDelta] (range.go is not part of the
    sources): the derived quantity delta = maximum - minimum. *)
Definition GetDelta (r : ContinuousRange) : float64 := sub (RMax r) (RMin r).

(** Modelled from the spec: [Range.IsZero] (range.go is not part of the
    sources): a range is unresolved (zero) until its bounds are set. *)
Definition RangeIsZero (r : ContinuousRange) : bool :=
  eqb (RMin r) zero && eqb (RMax r) zero.

(** The store of range objects: the object at address [l] is the [l]-th
    element.  A new object is appended, which is the allocation
    [&ContinuousRange{}]. *)
Definition Store : Type := list ContinuousRange.

Definition get (h : Store) (l : loc) : ContinuousRange := nth l h zeroRange.

Fixpoint upd (h : Store) (l : loc) (f : ContinuousRange -> ContinuousRange)
  : Store :=
  match h, l with
  | [], _ => []
  | r :: h', O => f r :: h'
  | r :: h', S l' => r :: upd h' l' f
  end.

Definition alloc (h : Store) : loc * Store := (length h, h ++ [zeroRange]).

(** Modelled from the spec: [Range.SetMin] (range.go is not part of the
    sources): the minimum of the range object is overwritten in place. *)
Definition SetMin (l : loc) (v : float64) (h : Store) : Store :=
  upd h l (fun r => mkRange v (RMax r) (Domain r)).

(** Modelled from the spec: [Range.SetMax] (range.go is not part of the
    sources): the maximum of the range object is overwritten in place. *)
Definition SetMax (l : loc) (v : float64) (h : Store) : Store :=
  upd h l (fun r => mkRange (RMin r) v (Domain r)).

(** Modelled from the spec: [Range.SetDomain] (range.go is not part of the
    sources): the pixel-domain length is set once the plot area is known. *)
Definition SetDomain (l : loc) (d : Z) (h : Store) : Store :=
  upd h l (fun r => mkRange (RMin r) (RMax r) d).

(** ** Collaborators of [chart.go] *)

(** The drawing surface handed back by the provider.  [MeasureText] depends
    on the font and size last set; [SaveResult] is what [r.Save(w)]
    returns. *)
Record Renderer := mkRenderer {
  MeasureText : FontRef -> float64 -> string -> Box;
  SaveResult : option error
}.

(** [rp(width, height)] returns a renderer or an error. *)
Definition RendererProvider : Type := Z -> Z -> error + Renderer.

(** Constants and functions of the package that [chart.go] uses and that
    live in other files (defaults.go, math_util.go, style.go, xaxis.go,
    yaxis.go, annotation_series.go, font.go).  The axis and annotation
    methods read the range object they are handed. *)
Class Externals := {
  DefaultChartWidth : Z;
  DefaultChartHeight : Z;
  DefaultDPI : float64;
  DefaultBackgroundPadding : Box;
  DefaultBackgroundColor : Color;
  DefaultBackgroundStrokeColor : Color;
  DefaultBackgroundStrokeWidth : float64;
  DefaultCanvasColor : Color;
  DefaultCanvasStrokeColor : Color;
  DefaultCanvasStrokeWidth : float64;
  DefaultSeriesLineWidth : float64;
  DefaultFontSize : float64;
  DefaultAxisColor : Color;
  DefaultAxisFontSize : float64;
  DefaultAxisLineWidth : float64;
  DefaultTextColor : Color;
  DefaultTitleFontSize : float64;
  DefaultTitleTop : Z;
  GetDefaultColor : nat -> Color;
  GetDefaultFont : error + FontRef;
  GetRoundToForDelta : float64 -> float64;
  RoundDown : float64 -> float64 -> float64;
  RoundUp : float64 -> float64 -> float64;
  InheritFrom : Style -> Style -> Style;
  Style_GetFont : Style -> FontRef -> FontRef;
  Style_GetFontColor : Style -> Color -> Color;
  Style_GetFontSize : Style -> float64 -> float64;
  XAxis_GetTicks :
    XAxis -> Renderer -> ContinuousRange -> Style -> option ValueFormatter ->
    list Tick;
  YAxis_GetTicks :
    YAxis -> Renderer -> ContinuousRange -> Style -> option ValueFormatter ->
    list Tick;
  XAxis_Measure :
    XAxis -> Renderer -> Box -> ContinuousRange -> Style -> list Tick -> Box;
  YAxis_Measure :
    YAxis -> Renderer -> Box -> ContinuousRange -> Style -> list Tick -> Box;
  Annotation_Measure :
    Series -> Renderer -> Box -> ContinuousRange -> ContinuousRange -> Style ->
    Box
}.

(** Calls that reach the provider, the drawing surface or the output sink,
    in the order they are made.  An axis, a series and an overlay element
    draw themselves: each such call is one event, with the canvas box and the
    range objects it is handed.  Text measurement does not draw and is not
    recorded. *)
Inductive Event :=
| EvProvider (width height : Z)
| EvSetDPI (dpi : float64)
| EvDrawBox (b : Box) (s : Style)
| EvXAxisRender (canvasBox : Box) (ra : loc) (defaults : Style) (ticks : list Tick)
| EvYAxisRender (axis : YAxisType) (canvasBox : Box) (ra : loc) (defaults : Style)
    (ticks : list Tick)
| EvSeriesRender (index : nat) (canvasBox : Box) (xrange yrange : loc)
    (defaults : Style)
| EvSetFont (f : FontRef)
| EvSetFontColor (c : Color)
| EvSetFontSize (size : float64)
| EvText (body : string) (x y : Z)
| EvElement (a : Renderable) (canvasBox : Box) (defaults : Style)
| EvSave.

(** What a call of [Render] leaves behind: the error returned (or nil), the
    events, the range objects, and the chart as [Render] last saw it, which is
    the copy made by the value receiver. *)
Record Outcome := mkOutcome {
  result : option error;
  events : list Event;
  store : Store;
  callee : Chart
}.

(** The running extremes of [getRanges]. *)
Record Extents := mkExtents {
  minx : float64;
  maxx : float64;
  miny : float64;
  maxy : float64;
  minya : float64;
  maxya : float64;
  seriesMappedToSecondaryAxis : bool
}.

Definition initExtents : Extents :=
  mkExtents MaxFloat64 (neg MaxFloat64) MaxFloat64 (neg MaxFloat64)
            MaxFloat64 (neg MaxFloat64) false.

(** ** The methods of [Chart] *)

Section ChartMethods.

Context `{Externals}.

Definition GetDPI (c : Chart) (defaults : list float64) : float64 :=
  if eqb (DPI c) zero then
    match defaults with
    | d :: _ => d
    | [] => DefaultDPI
    end
  else DPI c.

Definition GetFont (c : Chart) : FontRef :=
  match Font c with
  | None => defaultFont c
  | Some f => Some f
  end.

Definition GetWidth (c : Chart) : Z :=
  if Width c =? 0 then DefaultChartWidth else Width c.

Definition GetHeight (c : Chart) : Z :=
  if Height c =? 0 then DefaultChartHeight else Height c.

(** [Chart.Box]: the chart bounds less the background padding. *)
Definition ChartBox (c : Chart) : Box :=
  let dpr := GetRight (Padding (Background c)) (Right DefaultBackgroundPadding) in
  let dpb := GetBottom (Padding (Background c)) (Bottom DefaultBackgroundPadding) in
  mkBox (GetTop (Padding (Background c)) (Top DefaultBackgroundPadding))
        (GetLeft (Padding (Background c)) (Left DefaultBackgroundPadding))
        (wrap (GetWidth c - dpr))
        (wrap (GetHeight c - dpb)).

Definition styleDefaultsBackground (c : Chart) : Style :=
  mkStyle false zeroBox DefaultBackgroundStrokeWidth DefaultBackgroundStrokeColor
          DefaultBackgroundColor zero 0 None.

Definition styleDefaultsCanvas (c : Chart) : Style :=
  mkStyle false zeroBox DefaultCanvasStrokeWidth DefaultCanvasStrokeColor
          DefaultCanvasColor zero 0 None.

Definition styleDefaultsSeries (c : Chart) (seriesIndex : nat) : Style :=
  let strokeColor := GetDefaultColor seriesIndex in
  mkStyle false zeroBox DefaultSeriesLineWidth strokeColor 0 DefaultFontSize 0
          (GetFont c).

Definition styleDefaultsAxes (c : Chart) : Style :=
  mkStyle false zeroBox DefaultAxisLineWidth DefaultAxisColor 0
          DefaultAxisFontSize DefaultAxisColor (GetFont c).

Definition styleDefaultsElements (c : Chart) : Style :=
  mkStyle false zeroBox zero 0 0 zero 0 (GetFont c).

(** *** getRanges *)

(** One point of a [BoundedValueProvider]: (x, y1, y2). *)
Definition scanBoundedValue (seriesAxis : YAxisType) (e : Extents)
    (p : float64 * float64 * float64) : Extents :=
  let '(vx, vy1, vy2) := p in
  let minx' := Min (minx e) vx in
  let maxx' := Max (maxx e) vx in
  if YAxisType_eqb seriesAxis YAxisPrimary then
    mkExtents minx' maxx'
      (Min (Min (miny e) vy1) vy2) (Max (Max (maxy e) vy1) vy2)
      (minya e) (maxya e) (seriesMappedToSecondaryAxis e)
  else if YAxisType_eqb seriesAxis YAxisSecondary then
    mkExtents minx' maxx' (miny e) (maxy e)
      (Min (Min (minya e) vy1) vy2) (Max (Max (maxya e) vy1) vy2) true
  else
    mkExtents minx' maxx' (miny e) (maxy e) (minya e) (maxya e)
      (seriesMappedToSecondaryAxis e).

(** One point of a [ValueProvider]: (x, y). *)
Definition scanValue (seriesAxis : YAxisType) (e : Extents)
    (p : float64 * float64) : Extents :=
  let '(vx, vy) := p in
  let minx' := Min (minx e) vx in
  let maxx' := Max (maxx e) vx in
  if YAxisType_eqb seriesAxis YAxisPrimary then
    mkExtents minx' maxx' (Min (miny e) vy) (Max (maxy e) vy)
      (minya e) (maxya e) (seriesMappedToSecondaryAxis e)
  else if YAxisType_eqb seriesAxis YAxisSecondary then
    mkExtents minx' maxx' (miny e) (maxy e)
      (Min (minya e) vy) (Max (maxya e) vy) true
  else
    mkExtents minx' maxx' (miny e) (maxy e) (minya e) (maxya e)
      (seriesMappedToSecondaryAxis e).

(** The body of the loop over the series: a shown series is scanned as a
    bounded-value provider if it is one, else as a value provider if it is
    one. *)
Definition scanSeries (e : Extents) (s : Series) : Extents :=
  if StyleIsZero (sStyle s) || Show (sStyle s) then
    let seriesAxis := sYAxis s in
    match sBounded s with
    | Some points => fold_left (scanBoundedValue seriesAxis) points e
    | None =>
        match sValues s with
        | Some points => fold_left (scanValue seriesAxis) points e
        | None => e
        end
    end
  else e.

(** The loop over an explicit tick list: (tickMin, tickMax). *)
Definition tickExtremes (ticks : list Tick) : float64 * float64 :=
  fold_left
    (fun acc t => (Min (fst acc) (Value t), Max (snd acc) (Value t)))
    ticks (MaxFloat64, neg MaxFloat64).

(** The axis's own range object, or a new one when the axis has none. *)
Definition rangeOrNew (r : option loc) (h : Store) : loc * Store :=
  match r with
  | None => alloc h
  | Some l => (l, h)
  end.

(** Rounding of an auto-computed Y range in place. *)
Definition roundRange (l : loc) (h : Store) : Store :=
  let delta := GetDelta (get h l) in
  let roundTo := GetRoundToForDelta delta in
  let rmin := RoundDown (RMin (get h l)) roundTo in
  let rmax := RoundUp (RMax (get h l)) roundTo in
  SetMax l rmax (SetMin l rmin h).

Definition getRanges (c : Chart) (h : Store) : loc * loc * loc * Store :=
  let e := fold_left scanSeries (cSeries c) initExtents in
  let '(xrange, h) := rangeOrNew (xRange (cXAxis c)) h in
  let '(yrange, h) := rangeOrNew (yRange (cYAxis c)) h in
  let '(yrangeAlt, h) := rangeOrNew (yRange (cYAxisSecondary c)) h in
  let h :=
    if (0 <? length (xTicks (cXAxis c)))%nat then
      let '(tickMin, tickMax) := tickExtremes (xTicks (cXAxis c)) in
      SetMax xrange tickMax (SetMin xrange tickMin h)
    else if RangeIsZero (get h xrange) then
      SetMax xrange (maxx e) (SetMin xrange (minx e) h)
    else h in
  let h :=
    if (0 <? length (yTicks (cYAxis c)))%nat then
      let '(tickMin, tickMax) := tickExtremes (yTicks (cYAxis c)) in
      SetMax yrange tickMax (SetMin yrange tickMin h)
    else if RangeIsZero (get h yrange) then
      roundRange yrange (SetMax yrange (maxy e) (SetMin yrange (miny e) h))
    else h in
  let h :=
    if (0 <? length (yTicks (cYAxisSecondary c)))%nat then
      (* the loop runs over c.YAxis.Ticks *)
      let '(tickMin, tickMax) := tickExtremes (yTicks (cYAxis c)) in
      SetMax yrangeAlt tickMax (SetMin yrangeAlt tickMin h)
    else if seriesMappedToSecondaryAxis e && RangeIsZero (get h yrangeAlt) then
      roundRange yrangeAlt
        (SetMax yrangeAlt (maxya e) (SetMin yrangeAlt (minya e) h))
    else h in
  (xrange, yrange, yrangeAlt, h).

(** *** checkRanges *)

Definition hasSecondarySeries (c : Chart) : bool :=
  existsb (fun s => YAxisType_eqb (sYAxis s) YAxisSecondary) (cSeries c).

Definition invalidDelta (d : float64) : bool :=
  IsInf d 0 || IsNaN d || eqb d zero.

Definition checkRanges (c : Chart) (h : Store) (xr yr yra : loc)
  : option error :=
  if invalidDelta (GetDelta (get h xr)) then
    Some (ErrNew "Invalid (infinite or NaN) x-range delta")
  else if invalidDelta (GetDelta (get h yr)) then
    Some (ErrNew "Invalid (infinite or NaN) y-range delta")
  else if hasSecondarySeries c then
    if invalidDelta (GetDelta (get h yra)) then
      Some (ErrNew "Invalid (infinite or NaN) y-secondary-range delta")
    else None
  else None.

Definition getDefaultCanvasBox (c : Chart) : Box := ChartBox c.

(** *** getValueFormatters *)

Definition Formatters : Type :=
  option ValueFormatter * option ValueFormatter * option ValueFormatter.

Definition pickFormatters (acc : Formatters) (s : Series) : Formatters :=
  let '(x, y, ya) := acc in
  match sFormatters s with
  | Some (sx, sy) =>
      if YAxisType_eqb (sYAxis s) YAxisPrimary then (sx, sy, ya)
      else if YAxisType_eqb (sYAxis s) YAxisSecondary then (sx, y, sy)
      else (x, y, ya)
  | None => (x, y, ya)
  end.

Definition orElse {A} (o d : option A) : option A :=
  match o with
  | Some v => Some v
  | None => d
  end.

Definition getValueFormatters (c : Chart) : Formatters :=
  let '(x, y, ya) := fold_left pickFormatters (cSeries c) (None, None, None) in
  (orElse (xValueFormatter (cXAxis c)) x,
   orElse (yValueFormatter (cYAxis c)) y,
   orElse (yValueFormatter (cYAxisSecondary c)) ya).

(** *** Layout *)

Definition hasAxes (c : Chart) : bool :=
  Show (xStyle (cXAxis c)) || Show (yStyle (cYAxis c))
  || Show (yStyle (cYAxisSecondary c)).

Definition getAxesTicks (c : Chart) (r : Renderer) (h : Store)
    (xr yr yar : loc) (xf yf yfa : option ValueFormatter)
  : list Tick * list Tick * list Tick :=
  let xticks :=
    if Show (xStyle (cXAxis c)) then
      XAxis_GetTicks (cXAxis c) r (get h xr) (styleDefaultsAxes c) xf
    else [] in
  let yticks :=
    if Show (yStyle (cYAxis c)) then
      YAxis_GetTicks (cYAxis c) r (get h yr) (styleDefaultsAxes c) yf
    else [] in
  let yticksAlt :=
    if Show (yStyle (cYAxisSecondary c)) then
      YAxis_GetTicks (cYAxisSecondary c) r (get h yar) (styleDefaultsAxes c) yfa
    else [] in
  (xticks, yticks, yticksAlt).

Definition getAxesAdjustedCanvasBox (c : Chart) (r : Renderer) (h : Store)
    (canvasBox : Box) (xr yr yra : loc) (xticks yticks yticksAlt : list Tick)
  : Box :=
  let axesOuterBox := Clone canvasBox in
  let axesOuterBox :=
    if Show (xStyle (cXAxis c)) then
      let axesBounds :=
        XAxis_Measure (cXAxis c) r canvasBox (get h xr) (styleDefaultsAxes c)
                      xticks in
      Grow axesOuterBox axesBounds
    else axesOuterBox in
  let axesOuterBox :=
    if Show (yStyle (cYAxis c)) then
      let axesBounds :=
        YAxis_Measure (cYAxis c) r canvasBox (get h yr) (styleDefaultsAxes c)
                      yticks in
      Grow axesOuterBox axesBounds
    else axesOuterBox in
  let axesOuterBox :=
    if Show (yStyle (cYAxisSecondary c)) then
      let axesBounds :=
        YAxis_Measure (cYAxisSecondary c) r canvasBox (get h yra)
                      (styleDefaultsAxes c) yticksAlt in
      Grow axesOuterBox axesBounds
    else axesOuterBox in
  OuterConstrain canvasBox (ChartBox c) axesOuterBox.

Definition setRangeDomains (canvasBox : Box) (xr yr yra : loc) (h : Store)
  : Store :=
  let h := SetDomain xr (BoxWidth canvasBox) h in
  let h := SetDomain yr (BoxHeight canvasBox) h in
  SetDomain yra (BoxHeight canvasBox) h.

Definition hasAnnotationSeries (c : Chart) : bool :=
  existsb
    (fun s => sAnnotation s && (StyleIsZero (sStyle s) || Show (sStyle s)))
    (cSeries c).

(** The loop of [getAnnotationAdjustedCanvasBox], from series [seriesIndex]
    on. *)
Fixpoint growAnnotations (c : Chart) (r : Renderer) (h : Store)
    (canvasBox : Box) (xr yr yra : loc) (seriesIndex : nat)
    (l : list Series) (annotationSeriesBox : Box) : Box :=
  match l with
  | [] => annotationSeriesBox
  | s :: l' =>
      let annotationSeriesBox :=
        if sAnnotation s && (StyleIsZero (sStyle s) || Show (sStyle s)) then
          let style := styleDefaultsSeries c seriesIndex in
          let annotationBounds :=
            if YAxisType_eqb (sYAxis s) YAxisPrimary then
              Annotation_Measure s r canvasBox (get h xr) (get h yr) style
            else if YAxisType_eqb (sYAxis s) YAxisSecondary then
              Annotation_Measure s r canvasBox (get h xr) (get h yra) style
            else zeroBox in
          Grow annotationSeriesBox annotationBounds
        else annotationSeriesBox in
      growAnnotations c r h canvasBox xr yr yra (S seriesIndex) l'
                      annotationSeriesBox
  end.

Definition getAnnotationAdjustedCanvasBox (c : Chart) (r : Renderer)
    (h : Store) (canvasBox : Box) (xr yr yra : loc) : Box :=
  let annotationSeriesBox :=
    growAnnotations c r h canvasBox xr yr yra 0 (cSeries c) (Clone canvasBox) in
  OuterConstrain canvasBox (ChartBox c) annotationSeriesBox.

(** *** Drawing *)

Definition getBackgroundStyle (c : Chart) : Style :=
  InheritFrom (Background c) (styleDefaultsBackground c).

Definition drawBackground (c : Chart) : list Event :=
  [EvDrawBox (mkBox 0 0 (GetWidth c) (GetHeight c)) (getBackgroundStyle c)].

Definition getCanvasStyle (c : Chart) : Style :=
  InheritFrom (Canvas c) (styleDefaultsCanvas c).

Definition drawCanvas (c : Chart) (canvasBox : Box) : list Event :=
  [EvDrawBox canvasBox (getCanvasStyle c)].

Definition drawAxes (c : Chart) (canvasBox : Box) (xrange yrange yrangeAlt : loc)
    (xticks yticks yticksAlt : list Tick) : list Event :=
  (if Show (xStyle (cXAxis c)) then
     [EvXAxisRender canvasBox xrange (styleDefaultsAxes c) xticks]
   else [])
  ++ (if Show (yStyle (cYAxis c)) then
        [EvYAxisRender (AxisType (cYAxis c)) canvasBox yrange
                       (styleDefaultsAxes c) yticks]
      else [])
  ++ (if Show (yStyle (cYAxisSecondary c)) then
        [EvYAxisRender (AxisType (cYAxisSecondary c)) canvasBox yrangeAlt
                       (styleDefaultsAxes c) yticksAlt]
      else []).

Definition drawSeries (c : Chart) (canvasBox : Box)
    (xrange yrange yrangeAlt : loc) (s : Series) (seriesIndex : nat)
  : list Event :=
  if StyleIsZero (sStyle s) || Show (sStyle s) then
    if YAxisType_eqb (sYAxis s) YAxisPrimary then
      [EvSeriesRender seriesIndex canvasBox xrange yrange
                      (styleDefaultsSeries c seriesIndex)]
    else if YAxisType_eqb (sYAxis s) YAxisSecondary then
      [EvSeriesRender seriesIndex canvasBox xrange yrangeAlt
                      (styleDefaultsSeries c seriesIndex)]
    else []
  else [].

(** The loop [for index, series := range c.Series], from [index] on. *)
Fixpoint drawSeriesFrom (c : Chart) (canvasBox : Box)
    (xrange yrange yrangeAlt : loc) (index : nat) (l : list Series)
  : list Event :=
  match l with
  | [] => []
  | series :: l' =>
      drawSeries c canvasBox xrange yrange yrangeAlt series index
      ++ drawSeriesFrom c canvasBox xrange yrange yrangeAlt (S index) l'
  end.

Definition drawTitle (c : Chart) (r : Renderer) : list Event :=
  if (0 <? String.length (Title c))%nat && Show (TitleStyle c) then
    let font := Style_GetFont (TitleStyle c) (GetFont c) in
    let fontColor := Style_GetFontColor (TitleStyle c) DefaultTextColor in
    let titleFontSize := Style_GetFontSize (TitleStyle c) DefaultTitleFontSize in
    let textBox := MeasureText r font titleFontSize (Title c) in
    let textWidth := BoxWidth textBox in
    let textHeight := BoxHeight textBox in
    let titleX := wrap (Z.shiftr (GetWidth c) 1 - Z.shiftr textWidth 1) in
    let titleY :=
      wrap (GetTop (Padding (TitleStyle c)) DefaultTitleTop + textHeight) in
    [EvSetFont font; EvSetFontColor fontColor; EvSetFontSize titleFontSize;
     EvText (Title c) titleX titleY]
  else [].

(** The loop over the overlay elements. *)
Definition drawElements (c : Chart) (canvasBox : Box) : list Event :=
  map (fun a => EvElement a canvasBox (styleDefaultsElements c)) (Elements c).

(** *** Render *)

(** [c.YAxisSecondary.AxisType = YAxisSecondary], on the receiver. *)
Definition forceSecondaryAxisType (c : Chart) : Chart :=
  mkChart (Title c) (TitleStyle c) (Width c) (Height c) (DPI c) (Background c)
    (Canvas c) (cXAxis c) (cYAxis c)
    (mkYAxis (yStyle (cYAxisSecondary c)) YAxisSecondary
       (yValueFormatter (cYAxisSecondary c)) (yRange (cYAxisSecondary c))
       (yTicks (cYAxisSecondary c)))
    (Font c) (defaultFont c) (cSeries c) (Elements c).

(** [c.defaultFont = defaultFont], on the receiver. *)
Definition setDefaultFont (c : Chart) (f : FontRef) : Chart :=
  mkChart (Title c) (TitleStyle c) (Width c) (Height c) (DPI c) (Background c)
    (Canvas c) (cXAxis c) (cYAxis c) (cYAxisSecondary c) (Font c) f
    (cSeries c) (Elements c).

Definition Render (c : Chart) (rp : RendererProvider) (h : Store) : Outcome :=
  if (length (cSeries c) =? 0)%nat then
    mkOutcome (Some (ErrNew "Please provide at least one series")) [] h c
  else
    let c := forceSecondaryAxisType c in
    let ev := [EvProvider (GetWidth c) (GetHeight c)] in
    match rp (GetWidth c) (GetHeight c) with
    | inl err => mkOutcome (Some err) ev h c
    | inr r =>
    match
      match Font c with
      | None =>
          match GetDefaultFont with
          | inl err => inl err
          | inr font => inr (setDefaultFont c font)
          end
      | Some _ => inr c
      end
    with
    | inl err => mkOutcome (Some err) ev h c
    | inr c =>
      let ev := ev ++ [EvSetDPI (GetDPI c [DefaultDPI])] in
      let ev := ev ++ drawBackground c in
      let '(xr, yr, yra, h) := getRanges c h in
      let canvasBox := getDefaultCanvasBox c in
      let '(xf, yf, yfa) := getValueFormatters c in
      let h := setRangeDomains canvasBox xr yr yra h in
      match checkRanges c h xr yr yra with
      | Some err =>
          (* (try to) dump the raw background to the stream *)
          mkOutcome (Some err) (ev ++ [EvSave]) h c
      | None =>
        let '(xt, yt, yta, canvasBox, h) :=
          if hasAxes c then
            let '(xt, yt, yta) := getAxesTicks c r h xr yr yra xf yf yfa in
            let canvasBox :=
              getAxesAdjustedCanvasBox c r h canvasBox xr yr yra xt yt yta in
            let h := setRangeDomains canvasBox xr yr yra h in
            (* second pass *)
            let '(xt, yt, yta) := getAxesTicks c r h xr yr yra xf yf yfa in
            let canvasBox :=
              getAxesAdjustedCanvasBox c r h canvasBox xr yr yra xt yt yta in
            let h := setRangeDomains canvasBox xr yr yra h in
            (xt, yt, yta, canvasBox, h)
          else ([], [], [], canvasBox, h) in
        let '(xt, yt, yta, canvasBox, h) :=
          if hasAnnotationSeries c then
            let canvasBox :=
              getAnnotationAdjustedCanvasBox c r h canvasBox xr yr yra in
            let h := setRangeDomains canvasBox xr yr yra h in
            let '(xt, yt, yta) := getAxesTicks c r h xr yr yra xf yf yfa in
            (xt, yt, yta, canvasBox, h)
          else (xt, yt, yta, canvasBox, h) in
        let ev := ev ++ drawCanvas c canvasBox in
        let ev := ev ++ drawAxes c canvasBox xr yr yra xt yt yta in
        let ev := ev ++ drawSeriesFrom c canvasBox xr yr yra 0 (cSeries c) in
        let ev := ev ++ drawTitle c r in
        let ev := ev ++ drawElements c canvasBox in
        mkOutcome (SaveResult r) (ev ++ [EvSave]) h c
      end
    end
    end.

End ChartMethods.

(** ** Notions the specification speaks of *)

Section SpecNotions.

Context `{Externals}.

(** A series is shown when its style is unset or says so. *)
Definition shown (s : Series) : bool :=
  StyleIsZero (sStyle s) || Show (sStyle s).

(** The chart [Render] works on once the secondary axis kind is forced and
    the font is resolved, or the error of the font loader. *)
Definition prepare (c : Chart) : error + Chart :=
  let c := forceSecondaryAxisType c in
  match Font c with
  | None =>
      match GetDefaultFont with
      | inl err => inl err
      | inr font => inr (setDefaultFont c font)
      end
  | Some _ => inr c
  end.

(** The ranges as [checkRanges] sees them: resolved, with their domains set
    from the default canvas box. *)
Definition rangesAtCheck (c : Chart) (h : Store) : loc * loc * loc * Store :=
  let '(xr, yr, yra, h) := getRanges c h in
  (xr, yr, yra, setRangeDomains (getDefaultCanvasBox c) xr yr yra h).

(** One measure, grow, constrain, re-resolve cycle of the axis layout. *)
Definition axesCycle (c : Chart) (r : Renderer) (xr yr yra : loc)
    (xf yf yfa : option ValueFormatter) (st : Box * Store) : Box * Store :=
  let '(xt, yt, yta) := getAxesTicks c r (snd st) xr yr yra xf yf yfa in
  let canvasBox :=
    getAxesAdjustedCanvasBox c r (snd st) (fst st) xr yr yra xt yt yta in
  (canvasBox, setRangeDomains canvasBox xr yr yra (snd st)).

(** The annotation pass. *)
Definition annotationStep (c : Chart) (r : Renderer) (xr yr yra : loc)
    (st : Box * Store) : Box * Store :=
  let canvasBox :=
    getAnnotationAdjustedCanvasBox c r (snd st) (fst st) xr yr yra in
  (canvasBox, setRangeDomains canvasBox xr yr yra (snd st)).

(** The canvas box and range objects the drawing phase works with: two axis
    cycles when an axis is visible, then the annotation pass when there is a
    shown annotation series. *)
Definition layoutResult (c : Chart) (r : Renderer) (xr yr yra : loc)
    (xf yf yfa : option ValueFormatter) (st : Box * Store) : Box * Store :=
  let st :=
    if hasAxes c then
      axesCycle c r xr yr yra xf yf yfa (axesCycle c r xr yr yra xf yf yfa st)
    else st in
  if hasAnnotationSeries c then annotationStep c r xr yr yra st else st.

(** The ticks the axes are drawn with. *)
Definition layoutTicks (c : Chart) (r : Renderer) (xr yr yra : loc)
    (xf yf yfa : option ValueFormatter) (st : Box * Store)
  : list Tick * list Tick * list Tick :=
  if hasAnnotationSeries c then
    getAxesTicks c r (snd (layoutResult c r xr yr yra xf yf yfa st))
                 xr yr yra xf yf yfa
  else if hasAxes c then
    getAxesTicks c r (snd (axesCycle c r xr yr yra xf yf yfa st))
                 xr yr yra xf yf yfa
  else ([], [], []).

(** The draw calls of the axes, in the order X, Y, secondary Y, for those
    that are visible. *)
Definition axisCalls (c : Chart) (canvasBox : Box) (xr yr yra : loc)
    (ticks : list Tick * list Tick * list Tick) : list Event :=
  let '(xt, yt, yta) := ticks in
  map snd
    (filter fst
       [(Show (xStyle (cXAxis c)),
         EvXAxisRender canvasBox xr (styleDefaultsAxes c) xt);
        (Show (yStyle (cYAxis c)),
         EvYAxisRender (AxisType (cYAxis c)) canvasBox yr
                       (styleDefaultsAxes c) yt);
        (Show (yStyle (cYAxisSecondary c)),
         EvYAxisRender (AxisType (cYAxisSecondary c)) canvasBox yra
                       (styleDefaultsAxes c) yta)]).

(** The draw calls of the series: the shown series, in the order of the
    list, each with its position in the list and the Y range of its axis. *)
Definition seriesCalls (c : Chart) (canvasBox : Box) (xr yr yra : loc)
  : list Event :=
  map
    (fun p : nat * Series =>
       EvSeriesRender (fst p) canvasBox xr
         (match sYAxis (snd p) with
          | YAxisPrimary => yr
          | YAxisSecondary => yra
          end)
         (styleDefaultsSeries c (fst p)))
    (filter (fun p : nat * Series => shown (snd p))
            (combine (seq 0 (length (cSeries c))) (cSeries c))).

(** The calls that draw the title, made only for a non-empty title whose
    style is visible. *)
Definition titleCalls (c : Chart) (r : Renderer) : list Event :=
  match Title c with
  | EmptyString => []
  | String _ _ =>
      if Show (TitleStyle c) then
        let font := Style_GetFont (TitleStyle c) (GetFont c) in
        let size := Style_GetFontSize (TitleStyle c) DefaultTitleFontSize in
        let textBox := MeasureText r font size (Title c) in
        [EvSetFont font;
         EvSetFontColor (Style_GetFontColor (TitleStyle c) DefaultTextColor);
         EvSetFontSize size;
         EvText (Title c)
           (wrap (Z.shiftr (GetWidth c) 1 - Z.shiftr (BoxWidth textBox) 1))
           (wrap (GetTop (Padding (TitleStyle c)) DefaultTitleTop
                  + BoxHeight textBox))]
      else []
  end.

(** The calls of a render that gets to draw, in their order: provider and
    DPI, background fill, canvas fill, the axes, the series, the title, the
    overlay elements, and the save. *)
Definition drawOrder (c : Chart) (r : Renderer) (xr yr yra : loc)
    (canvasBox : Box) (ticks : list Tick * list Tick * list Tick)
  : list Event :=
  [EvProvider (GetWidth c) (GetHeight c);
   EvSetDPI (GetDPI c [DefaultDPI]);
   EvDrawBox (mkBox 0 0 (GetWidth c) (GetHeight c)) (getBackgroundStyle c);
   EvDrawBox canvasBox (getCanvasStyle c)]
  ++ axisCalls c canvasBox xr yr yra ticks
  ++ seriesCalls c canvasBox xr yr yra
  ++ titleCalls c r
  ++ map (fun a => EvElement a canvasBox (styleDefaultsElements c)) (Elements c)
  ++ [EvSave].

(** The X formatter of the last series of the list that provides value
    formatters, nil when no series does. *)
Definition lastSeriesXFormatter (l : list Series) : option ValueFormatter :=
  match find (fun s => match sFormatters s with Some _ => true | None => false end)
             (rev l) with
  | Some s =>
      match sFormatters s with
      | Some (sx, _) => sx
      | None => None
      end
  | None => None
  end.


(** Whether a secondary-axis configuration was given explicitly: a range
    object or a tick list. *)
Definition explicitSecondary (c : Chart) : bool :=
  match yRange (cYAxisSecondary c) with
  | Some _ => true
  | None => (0 <? length (yTicks (cYAxisSecondary c)))%nat
  end.

(** The three blocks of [getRanges] that settle the bounds of a range
    object, and the allocation in front of them. *)
Definition resolveX (c : Chart) (e : Extents) (xrange : loc) (h : Store)
  : Store :=
  if (0 <? length (xTicks (cXAxis c)))%nat then
    SetMax xrange (snd (tickExtremes (xTicks (cXAxis c))))
      (SetMin xrange (fst (tickExtremes (xTicks (cXAxis c)))) h)
  else if RangeIsZero (get h xrange) then
    SetMax xrange (maxx e) (SetMin xrange (minx e) h)
  else h.

Definition resolveY (c : Chart) (e : Extents) (yrange : loc) (h : Store)
  : Store :=
  if (0 <? length (yTicks (cYAxis c)))%nat then
    SetMax yrange (snd (tickExtremes (yTicks (cYAxis c))))
      (SetMin yrange (fst (tickExtremes (yTicks (cYAxis c)))) h)
  else if RangeIsZero (get h yrange) then
    roundRange yrange (SetMax yrange (maxy e) (SetMin yrange (miny e) h))
  else h.

Definition resolveYAlt (c : Chart) (e : Extents) (yrangeAlt : loc) (h : Store)
  : Store :=
  if (0 <? length (yTicks (cYAxisSecondary c)))%nat then
    SetMax yrangeAlt (snd (tickExtremes (yTicks (cYAxis c))))
      (SetMin yrangeAlt (fst (tickExtremes (yTicks (cYAxis c)))) h)
  else if seriesMappedToSecondaryAxis e && RangeIsZero (get h yrangeAlt) then
    roundRange yrangeAlt
      (SetMax yrangeAlt (maxya e) (SetMin yrangeAlt (minya e) h))
  else h.

Definition allocRanges (c : Chart) (h : Store) : loc * loc * loc * Store :=
  let x := rangeOrNew (xRange (cXAxis c)) h in
  let y := rangeOrNew (yRange (cYAxis c)) (snd x) in
  let ya := rangeOrNew (yRange (cYAxisSecondary c)) (snd y) in
  (fst x, fst y, fst ya, snd ya).

(** The extremes folded from the series. *)
Definition seriesExtents (c : Chart) : Extents :=
  fold_left scanSeries (cSeries c) initExtents.

(** The range objects of the three axes are objects of the store, and
    different axes have different objects. *)
Definition rangesSeparate (c : Chart) (h : Store) : Prop :=
  (forall l, xRange (cXAxis c) = Some l -> (l < length h)%nat)
  /\ (forall l, yRange (cYAxis c) = Some l -> (l < length h)%nat)
  /\ (forall l, yRange (cYAxisSecondary c) = Some l -> (l < length h)%nat)
  /\ (forall l, xRange (cXAxis c) = Some l -> yRange (cYAxis c) <> Some l)
  /\ (forall l, xRange (cXAxis c) = Some l ->
                yRange (cYAxisSecondary c) <> Some l)
  /\ (forall l, yRange (cYAxis c) = Some l ->
                yRange (cYAxisSecondary c) <> Some l).

(** The axis has no range object, or one that is still unresolved. *)
Definition rangeUnset (r : option loc) (h : Store) : Prop :=
  match r with
  | None => True
  | Some l => RangeIsZero (get h l) = true
  end.

(** The values of a series are numbers: there is no NaN among them. *)
Definition seriesNumeric (s : Series) : Prop :=
  match sBounded s with
  | Some points =>
      Forall (fun p : float64 * float64 * float64 =>
                is_num (fst (fst p)) /\ is_num (snd (fst p)) /\ is_num (snd p))
             points
  | None =>
      match sValues s with
      | Some points =>
          Forall (fun p : float64 * float64 => is_num (fst p) /\ is_num (snd p))
                 points
      | None => True
      end
  end.

(** A shown series on [axis] that has at least one point. *)
Definition contributes (axis : YAxisType) (s : Series) : bool :=
  shown s && YAxisType_eqb (sYAxis s) axis
  && match sBounded s with
     | Some points => (0 <? length points)%nat
     | None =>
         match sValues s with
         | Some points => (0 <? length points)%nat
         | None => false
         end
     end.

(** The folded minimum and maximum of a Y axis. *)
Definition axisMin (axis : YAxisType) (e : Extents) : float64 :=
  match axis with
  | YAxisPrimary => miny e
  | YAxisSecondary => minya e
  end.
Definition axisMax (axis : YAxisType) (e : Extents) : float64 :=
  match axis with
  | YAxisPrimary => maxy e
  | YAxisSecondary => maxya e
  end.

Definition numericExtents (e : Extents) : Prop :=
  is_num (minx e) /\ is_num (maxx e) /\ is_num (miny e) /\ is_num (maxy e)
  /\ is_num (minya e) /\ is_num (maxya e).

(** The values a list of ticks carries. *)
Definition tickValues (ticks : list Tick) : list float64 := map Value ticks.

(** [v] is the smallest (largest) of the values [l]. *)
Definition is_least (v : float64) (l : list float64) : Prop :=
  In v l /\ forall w, In w l -> le v w.
Definition is_greatest (v : float64) (l : list float64) : Prop :=
  In v l /\ forall w, In w l -> le w v.

End SpecNotions.

(** ** Collaborators modelled from the specification *)

Module Modelled.

Definition mul (x y : float64) : float64 := SFmul prec emax x y.
Definition div (x y : float64) : float64 := SFdiv prec emax x y.

(** Go's [math.Floor]: the greatest integer value not above [x]; zeros,
    infinities and NaN are returned as they are. *)
Definition Floor (x : float64) : float64 :=
  match x with
  | S754_finite s m e =>
      if 0 <=? e then x
      else
        let q := Z.shiftr (Zpos m) (- e) in
        let exact := Z.shiftl q (- e) =? Zpos m in
        let n := if s then (if exact then - q else - q - 1) else q in
        if n =? 0 then S754_zero s else of_Z n
  | _ => x
  end.

(** Go's [math.Ceil] is [-Floor(-x)]. *)
Definition Ceil (x : float64) : float64 := neg (Floor (neg x)).

(** Modelled from the spec: [Math.RoundDown] (math_util.go is not part of
    the sources): the minimum is rounded down to a multiple of the
    granularity. *)
Definition roundDown (value roundTo : float64) : float64 :=
  mul (Floor (div value roundTo)) roundTo.

(** Modelled from the spec: [Math.RoundUp] (math_util.go is not part of the
    sources): the maximum is rounded up to a multiple of the granularity. *)
Definition roundUp (value roundTo : float64) : float64 :=
  mul (Ceil (div value roundTo)) roundTo.

(** The magnitude thresholds of the granularity, coarsest first. *)
Definition thresholds : list Z :=
  [10000000000; 1000000000; 100000000; 10000000; 1000000; 100000; 10000;
   1000; 100; 10].

(** Modelled from the spec: [Math.GetRoundToForDelta] (math_util.go is not
    part of the sources): the granularity follows the magnitude of delta
    through a fixed list of thresholds: deltas in the tens round to whole
    units, in the hundreds to tens, in the thousands to hundreds and so on;
    sub-unit deltas round to a fine fraction. *)
Fixpoint lookupRoundTo (delta : float64) (l : list Z) : float64 :=
  match l with
  | [] => div (of_Z 1) (of_Z 100)
  | t :: l' =>
      if ltb (of_Z t) delta then of_Z (t / 10) else lookupRoundTo delta l'
  end.

Definition getRoundToForDelta (delta : float64) : float64 :=
  lookupRoundTo delta thresholds.

(** Modelled from the spec: [XAxis.Measure] and [YAxis.Measure] (xaxis.go
    and yaxis.go are not part of the sources): the footprint of an axis is
    what its tick labels occupy when drawn along the edge of the canvas box:
    the canvas box pushed out, side by side, by the room the labels take
    there.  That room is a matter of the renderer's text measurement, the
    style and the ticks. *)
Definition footprint (canvasBox room : Box) : Box :=
  mkBox (Top canvasBox - Top room) (Left canvasBox - Left room)
        (Right canvasBox + Right room) (Bottom canvasBox + Bottom room).

(** Modelled from the spec: the getters [GetFontColor], [GetFontSize],
    [GetFont] of a [Style] (style.go is not part of the sources): an
    attribute left unset takes the default. *)
Definition pickZ (v d : Z) : Z := if v =? 0 then d else v.
Definition pickF (v d : float64) : float64 := if eqb v zero then d else v.
Definition pickFont (v d : FontRef) : FontRef :=
  match v with
  | None => d
  | Some f => Some f
  end.

(** Modelled from the spec: [Style.InheritFrom] (style.go is not part of
    the sources): an explicit override-over-default merge, attribute by
    attribute. *)
Definition inheritFrom (s defaults : Style) : Style :=
  mkStyle (Show s)
    (mkBox (GetTop (Padding s) (Top (Padding defaults)))
           (GetLeft (Padding s) (Left (Padding defaults)))
           (GetRight (Padding s) (Right (Padding defaults)))
           (GetBottom (Padding s) (Bottom (Padding defaults))))
    (pickF (StrokeWidth s) (StrokeWidth defaults))
    (pickZ (StrokeColor s) (StrokeColor defaults))
    (pickZ (FillColor s) (FillColor defaults))
    (pickF (FontSize s) (FontSize defaults))
    (pickZ (FontColor s) (FontColor defaults))
    (pickFont (StyleFont s) (StyleFont defaults)).

(** The label of a tick value: what the formatter makes of it, or nothing
    without a formatter. *)
Definition labelOf (f : option ValueFormatter) (v : float64) : string :=
  match f with
  | Some fmt => fmt v
  | None => EmptyString
  end.

(** Modelled from the spec: [GetTicks] of an axis (xaxis.go and yaxis.go
    are not part of the sources): the explicit tick list of the axis
    verbatim, else values across the resolved range, here its two ends,
    labelled by the formatter when there is one. *)
Definition ticksOf (explicit : list Tick) (ra : ContinuousRange)
    (f : option ValueFormatter) : list Tick :=
  match explicit with
  | [] => [mkTick (RMin ra) (labelOf f (RMin ra));
           mkTick (RMax ra) (labelOf f (RMax ra))]
  | _ :: _ => explicit
  end.

(** Modelled from the spec: the collaborators [E] with [XAxis.Measure] and
    [YAxis.Measure] (xaxis.go and yaxis.go are not part of the sources)
    returning the footprint above, for the room [xroom] and [yroom] that the
    labels of an axis take. *)
Definition withAxisFootprints (E : Externals)
    (xroom : XAxis -> Renderer -> Style -> list Tick -> Box)
    (yroom : YAxis -> Renderer -> Style -> list Tick -> Box) : Externals :=
  {| DefaultChartWidth := DefaultChartWidth;
     DefaultChartHeight := DefaultChartHeight;
     DefaultDPI := DefaultDPI;
     DefaultBackgroundPadding := DefaultBackgroundPadding;
     DefaultBackgroundColor := DefaultBackgroundColor;
     DefaultBackgroundStrokeColor := DefaultBackgroundStrokeColor;
     DefaultBackgroundStrokeWidth := DefaultBackgroundStrokeWidth;
     DefaultCanvasColor := DefaultCanvasColor;
     DefaultCanvasStrokeColor := DefaultCanvasStrokeColor;
     DefaultCanvasStrokeWidth := DefaultCanvasStrokeWidth;
     DefaultSeriesLineWidth := DefaultSeriesLineWidth;
     DefaultFontSize := DefaultFontSize;
     DefaultAxisColor := DefaultAxisColor;
     DefaultAxisFontSize := DefaultAxisFontSize;
     DefaultAxisLineWidth := DefaultAxisLineWidth;
     DefaultTextColor := DefaultTextColor;
     DefaultTitleFontSize := DefaultTitleFontSize;
     DefaultTitleTop := DefaultTitleTop;
     GetDefaultColor := GetDefaultColor;
     GetDefaultFont := GetDefaultFont;
     GetRoundToForDelta := GetRoundToForDelta;
     RoundDown := RoundDown;
     RoundUp := RoundUp;
     InheritFrom := InheritFrom;
     Style_GetFont := Style_GetFont;
     Style_GetFontColor := Style_GetFontColor;
     Style_GetFontSize := Style_GetFontSize;
     XAxis_GetTicks := XAxis_GetTicks;
     YAxis_GetTicks := YAxis_GetTicks;
     XAxis_Measure := fun a r b _ st t => footprint b (xroom a r st t);
     YAxis_Measure := fun a r b _ st t => footprint b (yroom a r st t);
     Annotation_Measure := Annotation_Measure |}.

(** The collaborators as modelled above.  The defaults are round numbers;
    the outcome of the font loader is a parameter; axes and annotations
    are measured as taking no room. *)
Definition base (font : error + FontRef) : Externals :=
  {| DefaultChartWidth := 1024;
     DefaultChartHeight := 400;
     DefaultDPI := of_Z 92;
     DefaultBackgroundPadding := mkBox 5 5 5 5;
     DefaultBackgroundColor := 1;
     DefaultBackgroundStrokeColor := 1;
     DefaultBackgroundStrokeWidth := of_Z 1;
     DefaultCanvasColor := 1;
     DefaultCanvasStrokeColor := 1;
     DefaultCanvasStrokeWidth := of_Z 1;
     DefaultSeriesLineWidth := of_Z 1;
     DefaultFontSize := of_Z 10;
     DefaultAxisColor := 2;
     DefaultAxisFontSize := of_Z 10;
     DefaultAxisLineWidth := of_Z 1;
     DefaultTextColor := 2;
     DefaultTitleFontSize := of_Z 18;
     DefaultTitleTop := 10;
     GetDefaultColor := fun i => 3 + Z.of_nat i;
     GetDefaultFont := font;
     GetRoundToForDelta := getRoundToForDelta;
     RoundDown := roundDown;
     RoundUp := roundUp;
     InheritFrom := inheritFrom;
     Style_GetFont := fun s d => pickFont (StyleFont s) d;
     Style_GetFontColor := fun s d => pickZ (FontColor s) d;
     Style_GetFontSize := fun s d => pickF (FontSize s) d;
     XAxis_GetTicks := fun a _ ra _ f => ticksOf (xTicks a) ra f;
     YAxis_GetTicks := fun a _ ra _ f => ticksOf (yTicks a) ra f;
     XAxis_Measure := fun _ _ b _ _ _ => b;
     YAxis_Measure := fun _ _ b _ _ _ => b;
     Annotation_Measure := fun _ _ b _ _ _ => b |}.

Definition externals
    (xroom : XAxis -> Renderer -> Style -> list Tick -> Box)
    (yroom : YAxis -> Renderer -> Style -> list Tick -> Box)
    (font : error + FontRef) : Externals :=
  withAxisFootprints (base font) xroom yroom.





End Modelled.

(** ** The layout cycle in the words of the specification *)

Section LayoutNotions.

Context `{Externals}.




End LayoutNotions.

(** ** Example charts *)

Module Examples.

Definition f (n : Z) : float64 := of_Z n.

Definition hiddenStyle : Style :=
  mkStyle false zeroBox (f 1) 0 0 zero 0 None.
Definition shownStyle : Style :=
  mkStyle true zeroBox zero 0 0 zero 0 None.

(** A line from (0, 0) to (1, 100). *)
Definition line (axis : YAxisType) (style : Style) : Series :=
  mkSeries style axis None (Some [(f 0, f 0); (f 1, f 100)]) None false.

Definition noXAxis : XAxis := mkXAxis zeroStyle None None [].
Definition noYAxis : YAxis := mkYAxis zeroStyle YAxisPrimary None None [].

Definition chartOf (x : XAxis) (y ya : YAxis) (series : list Series) : Chart :=
  mkChart "go" shownStyle 0 0 zero zeroStyle zeroStyle x y ya (Some 1%nat) None
          series [7%nat; 8%nat].

(** Text of eight pixels a character, ten high. *)
Definition renderer : Renderer :=
  mkRenderer
    (fun _ _ s => mkBox 0 0 (8 * Z.of_nat (String.length s)) 10) None.

Definition provider : RendererProvider := fun _ _ => inr renderer.

Definition noRoomX (a : XAxis) (r : Renderer) (s : Style) (t : list Tick) : Box :=
  zeroBox.
Definition noRoomY (a : YAxis) (r : Renderer) (s : Style) (t : list Tick) : Box :=
  zeroBox.

(** Labels twenty pixels high under the X axis, thirty wide beside a Y
    axis. *)
Definition roomX (a : XAxis) (r : Renderer) (s : Style) (t : list Tick) : Box :=
  mkBox 0 0 0 20.
Definition roomY (a : YAxis) (r : Renderer) (s : Style) (t : list Tick) : Box :=
  mkBox 0 0 30 0.

(** Labels a thousand pixels high under the X axis. *)
Definition tallRoomX (a : XAxis) (r : Renderer) (s : Style) (t : list Tick)
  : Box := mkBox 0 0 0 1000.

Definition env : Externals := Modelled.externals roomX roomY (inr (Some 0%nat)).
Definition tallEnv : Externals :=
  Modelled.externals tallRoomX roomY (inr (Some 0%nat)).

(** Axes drawn, one primary series, a title and two overlay elements. *)
Definition plain : Chart :=
  chartOf (mkXAxis shownStyle None None [])
          (mkYAxis shownStyle YAxisPrimary None None [])
          noYAxis
          [line YAxisPrimary zeroStyle; line YAxisSecondary hiddenStyle;
           line YAxisSecondary shownStyle].

Definition ticks3 : list Tick :=
  [mkTick (f 0) "0"; mkTick (f 50) "50"; mkTick (f 100) "100"].

(** Ticks at 0, 50 and 100 on the secondary Y axis only. *)
Definition secondaryTicks : Chart :=
  chartOf noXAxis noYAxis (mkYAxis zeroStyle YAxisSecondary None None ticks3)
          [line YAxisPrimary zeroStyle; line YAxisSecondary zeroStyle].

(** An explicit secondary range [5, 5] at address 0 and only a primary
    series. *)
Definition explicitSecondaryRange : Chart :=
  chartOf noXAxis noYAxis (mkYAxis shownStyle YAxisSecondary None (Some 0%nat) [])
          [line YAxisPrimary zeroStyle].
Definition storeFiveFive : Store := [mkRange (f 5) (f 5) 0].

(** A hidden series on the secondary axis next to a shown primary one. *)
Definition hiddenSecondary : Chart :=
  chartOf noXAxis noYAxis noYAxis
          [line YAxisPrimary zeroStyle; line YAxisSecondary hiddenStyle].

(** A series without points. *)
Definition noPoints : Chart :=
  chartOf noXAxis noYAxis noYAxis
          [mkSeries zeroStyle YAxisPrimary None (Some []) None false].

(** An explicit X range [1, 10] at address 0. *)
Definition explicitXRange : Chart :=
  chartOf (mkXAxis zeroStyle None (Some 0%nat) []) noYAxis noYAxis
          [line YAxisPrimary zeroStyle].
Definition storeOneTen : Store := [mkRange (f 1) (f 10) 0].

(** Only the X axis drawn. *)
Definition xAxisOnly : Chart :=
  chartOf (mkXAxis shownStyle None None []) noYAxis noYAxis
          [line YAxisPrimary zeroStyle].

Definition fmtA : ValueFormatter := fun _ => "a"%string.
Definition fmtB : ValueFormatter := fun _ => "b"%string.
Definition fmtC : ValueFormatter := fun _ => "c"%string.

(** A primary series with formatters, then a secondary one with others. *)
Definition twoFormatted : list Series :=
  [mkSeries zeroStyle YAxisPrimary None (Some []) (Some (Some fmtA, Some fmtA)) false;
   mkSeries zeroStyle YAxisSecondary None (Some []) (Some (Some fmtB, Some fmtB)) false;
   line YAxisPrimary zeroStyle].

(** A single point whose Y value is NaN. *)
Definition nanPoint : Chart :=
  chartOf noXAxis noYAxis noYAxis
          [mkSeries zeroStyle YAxisPrimary None (Some [(f 0, NaN)]) None false].

(** Two points with the Y values 0.7 and 1.5. *)
Definition fractional : Chart :=
  chartOf noXAxis noYAxis noYAxis
          [mkSeries zeroStyle YAxisPrimary None
             (Some [(f 0, Modelled.div (f 7) (f 10));
                    (f 1, Modelled.div (f 3) (f 2))]) None false].

(** One range object, unset, at address 0, attached to the X axis and to
    the primary Y axis. *)
Definition sharedRange : Chart :=
  chartOf (mkXAxis zeroStyle None (Some 0%nat) [])
          (mkYAxis zeroStyle YAxisPrimary None (Some 0%nat) [])
          noYAxis [line YAxisPrimary zeroStyle].
Definition storeUnset : Store := [zeroRange].

(** No series at all. *)
Definition empty : Chart := chartOf noXAxis noYAxis noYAxis [].

Definition formatted : Chart := chartOf noXAxis noYAxis noYAxis twoFormatted.
Definition formattedX : Chart :=
  chartOf (mkXAxis zeroStyle (Some fmtC) None []) noYAxis noYAxis twoFormatted.






End Examples.


(** ** More of [chart.go], and notions for its properties *)

Section MoreChartMethods.

Context `{Externals}.

(** [validateSeries]: the first error of [s.Validate()] over the series, or
    nil.  [Validate] is a method of the series, a parameter here. *)
Fixpoint validateFrom (validate : Series -> option error) (l : list Series)
  : option error :=
  match l with
  | [] => None
  | s :: l' =>
      match validate s with
      | Some err => Some err
      | None => validateFrom validate l'
      end
  end.

Definition validateSeries (validate : Series -> option error) (c : Chart)
  : option error :=
  validateFrom validate (cSeries c).

(** The series provides value formatters. *)
Definition providesFormatters (s : Series) : bool :=
  match sFormatters s with
  | Some _ => true
  | None => false
  end.

(** The Y formatter of the last series on [axis] that provides value
    formatters, nil when there is none. *)
Definition lastSeriesYFormatter (axis : YAxisType) (l : list Series)
  : option ValueFormatter :=
  match find (fun s => providesFormatters s && YAxisType_eqb (sYAxis s) axis)
             (rev l) with
  | Some s =>
      match sFormatters s with
      | Some (_, sy) => sy
      | None => None
      end
  | None => None
  end.

(** A shown series with at least one point, on whichever axis. *)
Definition hasPoint (s : Series) : bool :=
  shown s
  && match sBounded s with
     | Some points => (0 <? length points)%nat
     | None =>
         match sValues s with
         | Some points => (0 <? length points)%nat
         | None => false
         end
     end.

Definition isSave (e : Event) : bool :=
  match e with
  | EvSave => true
  | _ => false
  end.

(** The three errors of [checkRanges]. *)
Definition rangeErrors : list error :=
  [ErrNew "Invalid (infinite or NaN) x-range delta";
   ErrNew "Invalid (infinite or NaN) y-range delta";
   ErrNew "Invalid (infinite or NaN) y-secondary-range delta"].

(** How many of the three axes come without a range object. *)
Definition missingRanges (c : Chart) : nat :=
  (match xRange (cXAxis c) with Some _ => 0 | None => 1 end
   + match yRange (cYAxis c) with Some _ => 0 | None => 1 end
   + match yRange (cYAxisSecondary c) with Some _ => 0 | None => 1 end)%nat.

(** The Y range a series is drawn against. *)
Definition rangeOfAxis (axis : YAxisType) (yr yra : loc) : loc :=
  match axis with
  | YAxisPrimary => yr
  | YAxisSecondary => yra
  end.

End MoreChartMethods.

(** ** More example charts *)

Module MoreExamples.

Import Examples.

(** A provider that fails. *)
Definition failingProvider : RendererProvider := fun _ _ => inl (ErrForeign 1).

(** The chart [plain] without a font of its own. *)
Definition fontless : Chart :=
  mkChart "go" shownStyle 0 0 zero zeroStyle zeroStyle (cXAxis plain)
          (cYAxis plain) (cYAxisSecondary plain) None None (cSeries plain) [].

(** Collaborators whose font loader fails. *)
Definition noFontEnv : Externals :=
  Modelled.externals roomX roomY (inl (ErrForeign 2)).

(** A validation that rejects the series of the secondary axis. *)
Definition primaryOnly (s : Series) : option error :=
  match sYAxis s with
  | YAxisPrimary => None
  | YAxisSecondary => Some (ErrForeign 3)
  end.

End MoreExamples.

(** * Properties *)

(** ** The order of float64 *)

Section FloatOrder.

Ltac cmp_step :=
  match goal with
  | |- context [Z.compare ?a ?b] => destruct (Z.compare_spec a b)
  | H : context [Z.compare ?a ?b] |- _ => destruct (Z.compare_spec a b)
  | |- context [PosDef.Pos.compare_cont Eq ?a ?b] =>
      change (PosDef.Pos.compare_cont Eq a b) with (Pos.compare a b);
      destruct (Pos.compare_spec a b)
  | H : context [PosDef.Pos.compare_cont Eq ?a ?b] |- _ =>
      change (PosDef.Pos.compare_cont Eq a b) with (Pos.compare a b) in H;
      destruct (Pos.compare_spec a b)
  end.

Ltac cmp_cases :=
  repeat (cmp_step; simpl in *; subst; try discriminate; try reflexivity;
          auto; try lia).

Lemma le_refl (x : float64) : is_num x -> le x x.
Proof.
  unfold le, leb, SFleb, is_num.
  destruct x as [s|s| |s m e]; simpl; try discriminate; intros _;
    try (destruct s; reflexivity).
  destruct s; rewrite Z.compare_refl, Pos.compare_cont_refl; reflexivity.
Qed.

Lemma le_trans (x y z : float64) : le x y -> le y z -> le x z.
Proof.
  unfold le, leb, SFleb.
  destruct x as [sx|sx| |sx mx ex], y as [sy|sy| |sy my ey],
           z as [sz|sz| |sz mz ez]; simpl;
    try destruct sx; try destruct sy; try destruct sz; simpl;
    try discriminate; try reflexivity; intros Hxy Hyz;
    cmp_cases.
Qed.

Lemma le_is_num_l (x y : float64) : le x y -> is_num x.
Proof. unfold le, leb, SFleb, is_num; destruct x; simpl; try reflexivity; discriminate. Qed.

Lemma le_is_num_r (x y : float64) : le x y -> is_num y.
Proof.
  unfold le, leb, SFleb, is_num; destruct x, y; simpl; try reflexivity; discriminate.
Qed.

Ltac float_cases :=
  unfold le, leb, SFleb, is_num, Min, Max, IsInf, IsNaN, eqb, ltb, SFeqb,
    SFltb, Signbit, zero, Inf, NaN;
  intros;
  repeat match goal with
  | x : float64 |- _ => destruct x as [[]|[]| |[] ? ?]
  end;
  simpl in *; try discriminate; try reflexivity; auto;
  cmp_cases.

Lemma Min_le_l (x y : float64) : is_num x -> is_num y -> le (Min x y) x.
Proof. revert x y; float_cases. Qed.

Lemma Min_le_r (x y : float64) : is_num x -> is_num y -> le (Min x y) y.
Proof. revert x y; float_cases. Qed.

Lemma Max_ge_l (x y : float64) : is_num x -> is_num y -> le x (Max x y).
Proof. revert x y; float_cases. Qed.

Lemma Max_ge_r (x y : float64) : is_num x -> is_num y -> le y (Max x y).
Proof. revert x y; float_cases. Qed.

Lemma Min_cases (x y : float64) :
  is_num x -> is_num y -> Min x y = x \/ Min x y = y.
Proof. revert x y; float_cases. Qed.

Lemma Max_cases (x y : float64) :
  is_num x -> is_num y -> Max x y = x \/ Max x y = y.
Proof. revert x y; float_cases. Qed.

Lemma Min_is_num (x y : float64) : is_num x -> is_num y -> is_num (Min x y).
Proof. revert x y; float_cases. Qed.

Lemma Max_is_num (x y : float64) : is_num x -> is_num y -> is_num (Max x y).
Proof. revert x y; float_cases. Qed.

Lemma le_antisym_finite (s s' : bool) (m m' : positive) (e e' : Z) :
  le (S754_finite s m e) (S754_finite s' m' e') ->
  le (S754_finite s' m' e') (S754_finite s m e) ->
  S754_finite s m e = S754_finite s' m' e'.
Proof.
  unfold le, leb, SFleb; destruct s, s'; simpl; try discriminate;
    intros H1 H2; cmp_cases.
Qed.

Lemma le_MaxFloat64_antisym (v : float64) :
  le MaxFloat64 v -> le v MaxFloat64 -> v = MaxFloat64.
Proof.
  intros H1 H2; destruct v as [s|s| |s m e].
  - destruct s; vm_compute in H1; discriminate.
  - destruct s; vm_compute in H1, H2; discriminate.
  - vm_compute in H1; discriminate.
  - apply le_antisym_finite; assumption.
Qed.

Lemma le_neg_MaxFloat64_antisym (v : float64) :
  le v (neg MaxFloat64) -> le (neg MaxFloat64) v -> v = neg MaxFloat64.
Proof.
  intros H1 H2; destruct v as [s|s| |s m e].
  - destruct s; vm_compute in H1; discriminate.
  - destruct s; vm_compute in H1, H2; discriminate.
  - vm_compute in H1; discriminate.
  - apply le_antisym_finite; assumption.
Qed.

Lemma fold_Min_spec (l : list float64) (acc : float64) :
  is_num acc -> Forall is_num l ->
  let r := fold_left Min l acc in
  (r = acc \/ In r l) /\ le r acc /\ (forall v, In v l -> le r v).
Proof.
  revert acc; induction l as [|a l IH]; intros acc Hacc Hl; simpl.
  - split; [auto|split; [apply le_refl; exact Hacc|intros v []]].
  - inversion Hl as [|a' l' Ha Hrest]; subst.
    destruct (IH (Min acc a) (Min_is_num acc a Hacc Ha) Hrest)
      as [Hin [Hle Hall]].
    split; [|split].
    + destruct Hin as [Hin|Hin]; [|auto].
      destruct (Min_cases acc a Hacc Ha) as [E|E]; rewrite Hin, E; auto.
    + apply (le_trans _ (Min acc a)); [exact Hle|apply Min_le_l; assumption].
    + intros v [<-|Hv]; [|auto].
      apply (le_trans _ (Min acc a)); [exact Hle|apply Min_le_r; assumption].
Qed.

Lemma fold_Max_spec (l : list float64) (acc : float64) :
  is_num acc -> Forall is_num l ->
  let r := fold_left Max l acc in
  (r = acc \/ In r l) /\ le acc r /\ (forall v, In v l -> le v r).
Proof.
  revert acc; induction l as [|a l IH]; intros acc Hacc Hl; simpl.
  - split; [auto|split; [apply le_refl; exact Hacc|intros v []]].
  - inversion Hl as [|a' l' Ha Hrest]; subst.
    destruct (IH (Max acc a) (Max_is_num acc a Hacc Ha) Hrest)
      as [Hin [Hle Hall]].
    split; [|split].
    + destruct Hin as [Hin|Hin]; [|auto].
      destruct (Max_cases acc a Hacc Ha) as [E|E]; rewrite Hin, E; auto.
    + apply (le_trans _ (Max acc a)); [apply Max_ge_l; assumption|exact Hle].
    + intros v [<-|Hv]; [|auto].
      apply (le_trans _ (Max acc a)); [apply Max_ge_r; assumption|exact Hle].
Qed.

End FloatOrder.


(** ** The store of range objects *)

Section StoreFacts.

Lemma length_upd (h : Store) (l : loc) f : length (upd h l f) = length h.
Proof.
  revert l; induction h as [|r h IH]; intros [|l]; simpl; auto.
Qed.

Lemma get_upd_same (h : Store) (l : loc) f :
  (l < length h)%nat -> get (upd h l f) l = f (get h l).
Proof.
  unfold get; revert l; induction h as [|r h IH]; intros [|l]; simpl;
    intros Hl; try lia; auto.
  apply IH; lia.
Qed.

Lemma get_upd_other (h : Store) (l l' : loc) f :
  l <> l' -> get (upd h l f) l' = get h l'.
Proof.
  unfold get; revert l l'; induction h as [|r h IH]; intros [|l] [|l'];
    simpl; intros Hne; auto; try congruence.
Qed.

Lemma get_upd_cases (h : Store) (l l' : loc) f :
  get (upd h l f) l' = get h l' \/ get (upd h l f) l' = f (get h l').
Proof.
  unfold get; revert l l'; induction h as [|r h IH]; intros [|l] [|l'];
    simpl; auto.
Qed.

Lemma bounds_SetDomain (h : Store) (l l' : loc) (d : Z) :
  RMin (get (SetDomain l d h) l') = RMin (get h l')
  /\ RMax (get (SetDomain l d h) l') = RMax (get h l').
Proof.
  unfold SetDomain.
  destruct (get_upd_cases h l l' (fun r => mkRange (RMin r) (RMax r) d))
    as [-> | ->]; simpl; auto.
Qed.

Lemma bounds_setRangeDomains b xr yr yra h l :
  RMin (get (setRangeDomains b xr yr yra h) l) = RMin (get h l)
  /\ RMax (get (setRangeDomains b xr yr yra h) l) = RMax (get h l).
Proof.
  unfold setRangeDomains.
  destruct (bounds_SetDomain
              (SetDomain yr (BoxHeight b) (SetDomain xr (BoxWidth b) h))
              yra l (BoxHeight b)) as [-> ->].
  destruct (bounds_SetDomain (SetDomain xr (BoxWidth b) h) yr l (BoxHeight b))
    as [-> ->].
  apply bounds_SetDomain.
Qed.

End StoreFacts.

(** ** Render *)

Section RenderFacts.

Context `{Externals}.

(** No series: the configuration error, and nothing else happens. *)
Lemma Render_empty_series (c : Chart) (rp : RendererProvider) (h : Store) :
  cSeries c = [] ->
  Render c rp h =
  mkOutcome (Some (ErrNew "Please provide at least one series")) [] h c.
Proof.
  intros Hs; unfold Render; rewrite Hs; reflexivity.
Qed.

(** C6: for a chart with an empty series list, [Render] returns the
    configuration error without a single call on the provider, the drawing
    surface or the output sink, and leaves the range objects alone. *)
Theorem Render_no_series (c : Chart) (rp : RendererProvider) (h : Store) :
  cSeries c = [] ->
  result (Render c rp h) = Some (ErrNew "Please provide at least one series")
  /\ events (Render c rp h) = []
  /\ store (Render c rp h) = h.
Proof.
  intros Hs; rewrite (Render_empty_series c rp h Hs); simpl; auto.
Qed.

(** *** The paths through [Render] *)

Lemma prepare_fields (c c' : Chart) :
  prepare c = inr c' ->
  Title c' = Title c /\ TitleStyle c' = TitleStyle c /\ Width c' = Width c
  /\ Height c' = Height c /\ DPI c' = DPI c /\ Background c' = Background c
  /\ Canvas c' = Canvas c /\ cXAxis c' = cXAxis c /\ cYAxis c' = cYAxis c
  /\ Font c' = Font c /\ cSeries c' = cSeries c /\ Elements c' = Elements c
  /\ yStyle (cYAxisSecondary c') = yStyle (cYAxisSecondary c)
  /\ yValueFormatter (cYAxisSecondary c') = yValueFormatter (cYAxisSecondary c)
  /\ yRange (cYAxisSecondary c') = yRange (cYAxisSecondary c)
  /\ yTicks (cYAxisSecondary c') = yTicks (cYAxisSecondary c)
  /\ AxisType (cYAxisSecondary c') = YAxisSecondary.
Proof.
  unfold prepare; simpl.
  destruct (Font c) eqn:Hfont; [|destruct GetDefaultFont]; intros Hp;
    inversion Hp; subst; simpl; repeat split; auto.
Qed.

(** The provider fails: its error is returned and nothing is drawn. *)
Lemma Render_provider_error (c : Chart) (rp : RendererProvider) (h : Store) err :
  cSeries c <> [] ->
  rp (GetWidth c) (GetHeight c) = inl err ->
  Render c rp h =
  mkOutcome (Some err) [EvProvider (GetWidth c) (GetHeight c)] h
            (forceSecondaryAxisType c).
Proof.
  intros Hs Hrp; unfold Render.
  destruct (cSeries c) as [|s l]; [congruence|]; simpl.
  change (GetWidth (forceSecondaryAxisType c)) with (GetWidth c).
  change (GetHeight (forceSecondaryAxisType c)) with (GetHeight c).
  rewrite Hrp; reflexivity.
Qed.

(** The default font cannot be loaded: the loader's error is returned and
    nothing is drawn. *)
Lemma Render_font_error (c : Chart) (rp : RendererProvider) (h : Store) r err :
  cSeries c <> [] ->
  rp (GetWidth c) (GetHeight c) = inr r ->
  prepare c = inl err ->
  Render c rp h =
  mkOutcome (Some err) [EvProvider (GetWidth c) (GetHeight c)] h
            (forceSecondaryAxisType c).
Proof.
  intros Hs Hrp Hp; unfold Render, prepare in *.
  destruct (cSeries c) as [|s l]; [congruence|]; simpl in *.
  change (GetWidth (forceSecondaryAxisType c)) with (GetWidth c).
  change (GetHeight (forceSecondaryAxisType c)) with (GetHeight c).
  rewrite Hrp.
  destruct (Font c); [discriminate|].
  destruct GetDefaultFont; [|discriminate].
  inversion Hp; reflexivity.
Qed.

(** The ranges are rejected: the background has been drawn, the surface is
    saved and the range error returned. *)
Lemma Render_range_error (c : Chart) (rp : RendererProvider) (h : Store)
    r c' xr yr yra h1 err :
  cSeries c <> [] ->
  rp (GetWidth c) (GetHeight c) = inr r ->
  prepare c = inr c' ->
  rangesAtCheck c' h = (xr, yr, yra, h1) ->
  checkRanges c' h1 xr yr yra = Some err ->
  Render c rp h =
  mkOutcome (Some err)
    ([EvProvider (GetWidth c) (GetHeight c); EvSetDPI (GetDPI c' [DefaultDPI])]
     ++ drawBackground c' ++ [EvSave])
    h1 c'.
Proof.
  intros Hs Hrp Hp Hr Hc; unfold Render, prepare, rangesAtCheck in *.
  destruct (cSeries c) as [|s l]; [congruence|]; simpl in Hp |- *.
  change (GetWidth (forceSecondaryAxisType c)) with (GetWidth c).
  change (GetHeight (forceSecondaryAxisType c)) with (GetHeight c).
  rewrite Hrp.
  destruct (Font c); [|destruct GetDefaultFont; [discriminate|]];
    inversion Hp; subst c'; clear Hp;
    (destruct (getRanges _ h) as [[[xr0 yr0] yra0] h0];
     inversion Hr; subst; clear Hr;
     destruct (getValueFormatters _) as [[xf yf] yfa];
     rewrite Hc; reflexivity).
Qed.

(** The ranges are accepted: everything is drawn into the canvas box the
    layout ends with, and the outcome of saving the surface is returned. *)
Lemma Render_drawn (c : Chart) (rp : RendererProvider) (h : Store)
    r c' xr yr yra h1 xf yf yfa :
  cSeries c <> [] ->
  rp (GetWidth c) (GetHeight c) = inr r ->
  prepare c = inr c' ->
  rangesAtCheck c' h = (xr, yr, yra, h1) ->
  checkRanges c' h1 xr yr yra = None ->
  getValueFormatters c' = (xf, yf, yfa) ->
  let st0 := (getDefaultCanvasBox c', h1) in
  let st := layoutResult c' r xr yr yra xf yf yfa st0 in
  let ticks := layoutTicks c' r xr yr yra xf yf yfa st0 in
  Render c rp h =
  mkOutcome (SaveResult r)
    ([EvProvider (GetWidth c) (GetHeight c); EvSetDPI (GetDPI c' [DefaultDPI])]
     ++ drawBackground c'
     ++ drawCanvas c' (fst st)
     ++ drawAxes c' (fst st) xr yr yra (fst (fst ticks)) (snd (fst ticks))
                 (snd ticks)
     ++ drawSeriesFrom c' (fst st) xr yr yra 0 (cSeries c')
     ++ drawTitle c' r
     ++ drawElements c' (fst st)
     ++ [EvSave])
    (snd st) c'.
Proof.
  intros Hs Hrp Hp Hr Hc Hf st0 st ticks.
  subst st ticks st0.
  unfold Render, prepare, rangesAtCheck in *.
  destruct (cSeries c) as [|s l] eqn:Hser; [congruence|]; simpl in Hp |- *.
  change (GetWidth (forceSecondaryAxisType c)) with (GetWidth c).
  change (GetHeight (forceSecondaryAxisType c)) with (GetHeight c).
  rewrite Hrp.
  destruct (Font c); [|destruct GetDefaultFont; [discriminate|]];
    inversion Hp; subst c'; clear Hp;
    (destruct (getRanges _ h) as [[[xr0 yr0] yra0] h0];
     inversion Hr; subst; clear Hr;
     rewrite Hf, Hc;
     unfold layoutTicks, layoutResult, axesCycle, annotationStep;
     destruct (hasAxes _); destruct (hasAnnotationSeries _); simpl;
     repeat match goal with
     | |- context [getAxesTicks ?a ?b ?c ?d ?e ?f ?g ?h ?i] =>
         destruct (getAxesTicks a b c d e f g h i) as [[? ?] ?]; simpl
     end;
     repeat rewrite <- app_assoc; reflexivity).
Qed.

(** C5: when [checkRanges] rejects the resolved ranges, [Render] has drawn
    the background, saves the surface to the sink and then returns the range
    error: the events are the provider call, the DPI setting, the background
    fill and the save, in this order. *)
Theorem Render_invalid_ranges_dump_background (c : Chart)
    (rp : RendererProvider) (h : Store) r c' xr yr yra h1 err :
  cSeries c <> [] ->
  rp (GetWidth c) (GetHeight c) = inr r ->
  prepare c = inr c' ->
  rangesAtCheck c' h = (xr, yr, yra, h1) ->
  checkRanges c' h1 xr yr yra = Some err ->
  result (Render c rp h) = Some err
  /\ events (Render c rp h) =
     [EvProvider (GetWidth c) (GetHeight c);
      EvSetDPI (GetDPI c' [DefaultDPI]);
      EvDrawBox (mkBox 0 0 (GetWidth c') (GetHeight c')) (getBackgroundStyle c');
      EvSave].
Proof.
  intros Hs Hrp Hp Hr Hc.
  rewrite (Render_range_error c rp h r c' xr yr yra h1 err Hs Hrp Hp Hr Hc).
  split; reflexivity.
Qed.

(** *** The draw calls, as lists *)

Lemma drawAxes_axisCalls (c : Chart) (b : Box) (xr yr yra : loc) xt yt yta :
  drawAxes c b xr yr yra xt yt yta = axisCalls c b xr yr yra (xt, yt, yta).
Proof.
  unfold drawAxes, axisCalls.
  destruct (Show (xStyle (cXAxis c))), (Show (yStyle (cYAxis c))),
    (Show (yStyle (cYAxisSecondary c))); reflexivity.
Qed.

Lemma drawSeriesFrom_map (c : Chart) (b : Box) (xr yr yra : loc)
    (l : list Series) (i : nat) :
  drawSeriesFrom c b xr yr yra i l =
  map
    (fun p : nat * Series =>
       EvSeriesRender (fst p) b xr
         (match sYAxis (snd p) with
          | YAxisPrimary => yr
          | YAxisSecondary => yra
          end)
         (styleDefaultsSeries c (fst p)))
    (filter (fun p : nat * Series => shown (snd p))
            (combine (seq i (length l)) l)).
Proof.
  revert i; induction l as [|s l IH]; intros i; [reflexivity|].
  simpl; rewrite IH; unfold drawSeries, shown.
  destruct (StyleIsZero (sStyle s) || Show (sStyle s)); [|reflexivity].
  destruct (sYAxis s) eqn:Hax; simpl; rewrite Hax; reflexivity.
Qed.

Lemma drawSeriesFrom_seriesCalls (c : Chart) (b : Box) (xr yr yra : loc) :
  drawSeriesFrom c b xr yr yra 0 (cSeries c) = seriesCalls c b xr yr yra.
Proof. apply drawSeriesFrom_map. Qed.

Lemma drawTitle_titleCalls (c : Chart) (r : Renderer) :
  drawTitle c r = titleCalls c r.
Proof.
  unfold drawTitle, titleCalls.
  destruct (Title c); simpl; [reflexivity|].
  destruct (Show (TitleStyle c)); reflexivity.
Qed.

(** C8: in a render that returns no error, the calls are made in the order:
    provider and DPI, background fill, canvas fill, the visible axes (X, Y,
    secondary Y), the shown series in the order of the list, each with the
    range of its axis, the title when it is non-empty and visible, the
    overlay elements in their order, and the save. *)
Theorem Render_success_draw_order (c : Chart) (rp : RendererProvider)
    (h : Store) :
  result (Render c rp h) = None ->
  exists r c' xr yr yra h1 xf yf yfa,
    rp (GetWidth c) (GetHeight c) = inr r
    /\ prepare c = inr c'
    /\ rangesAtCheck c' h = (xr, yr, yra, h1)
    /\ getValueFormatters c' = (xf, yf, yfa)
    /\ let st0 := (getDefaultCanvasBox c', h1) in
       events (Render c rp h) =
       drawOrder c' r xr yr yra
         (fst (layoutResult c' r xr yr yra xf yf yfa st0))
         (layoutTicks c' r xr yr yra xf yf yfa st0).
Proof.
  intros Hres.
  destruct (cSeries c) as [|s0 l0] eqn:Hser.
  { rewrite (Render_empty_series c rp h Hser) in Hres; discriminate. }
  assert (Hs : cSeries c <> []) by (rewrite Hser; discriminate).
  destruct (rp (GetWidth c) (GetHeight c)) as [err|r] eqn:Hrp.
  { rewrite (Render_provider_error c rp h err Hs Hrp) in Hres; discriminate. }
  destruct (prepare c) as [err|c'] eqn:Hp.
  { rewrite (Render_font_error c rp h r err Hs Hrp Hp) in Hres; discriminate. }
  destruct (rangesAtCheck c' h) as [[[xr yr] yra] h1] eqn:Hr.
  destruct (checkRanges c' h1 xr yr yra) as [err|] eqn:Hc.
  { rewrite (Render_range_error c rp h r c' xr yr yra h1 err Hs Hrp Hp Hr Hc)
      in Hres; discriminate. }
  destruct (getValueFormatters c') as [[xf yf] yfa] eqn:Hf.
  exists r, c', xr, yr, yra, h1, xf, yf, yfa.
  repeat (split; [assumption || reflexivity|]).
  rewrite (Render_drawn c rp h r c' xr yr yra h1 xf yf yfa Hs Hrp Hp Hr Hc Hf).
  cbv zeta; simpl events; unfold drawOrder.
  rewrite drawAxes_axisCalls, drawSeriesFrom_seriesCalls, drawTitle_titleCalls.
  rewrite <- !surjective_pairing.
  destruct (prepare_fields c c' Hp) as [_ [_ [Hw [Hh _]]]].
  unfold GetWidth, GetHeight; rewrite Hw, Hh.
  reflexivity.
Qed.

(** C3, as the code has it: there is no layout error.  When the ranges are
    accepted and the layout ends with a canvas box of non-positive width or
    height, [Render] fills that very box and returns what saving the surface
    returns. *)
Theorem Render_draws_into_collapsed_box (c : Chart) (rp : RendererProvider)
    (h : Store) r c' xr yr yra h1 xf yf yfa :
  cSeries c <> [] ->
  rp (GetWidth c) (GetHeight c) = inr r ->
  prepare c = inr c' ->
  rangesAtCheck c' h = (xr, yr, yra, h1) ->
  checkRanges c' h1 xr yr yra = None ->
  getValueFormatters c' = (xf, yf, yfa) ->
  let canvasBox :=
    fst (layoutResult c' r xr yr yra xf yf yfa (getDefaultCanvasBox c', h1)) in
  BoxWidth canvasBox <= 0 \/ BoxHeight canvasBox <= 0 ->
  result (Render c rp h) = SaveResult r
  /\ In (EvDrawBox canvasBox (getCanvasStyle c')) (events (Render c rp h)).
Proof.
  intros Hs Hrp Hp Hr Hc Hf canvasBox _.
  rewrite (Render_drawn c rp h r c' xr yr yra h1 xf yf yfa Hs Hrp Hp Hr Hc Hf).
  split; [reflexivity|].
  cbv zeta; simpl events.
  right; right; right; left; reflexivity.
Qed.


(** *** getValueFormatters *)

Lemma pickFormatters_x (acc : Formatters) (s : Series) :
  fst (fst (pickFormatters acc s)) =
  match sFormatters s with
  | Some (sx, _) => sx
  | None => fst (fst acc)
  end.
Proof.
  destruct acc as [[x y] ya]; unfold pickFormatters.
  destruct (sFormatters s) as [[sx sy]|]; [|reflexivity].
  destruct (sYAxis s); reflexivity.
Qed.

Lemma fold_pickFormatters_x (l : list Series) (acc : Formatters) :
  fst (fst (fold_left pickFormatters l acc)) =
  match find (fun s => match sFormatters s with Some _ => true | None => false end)
             (rev l) with
  | Some s =>
      match sFormatters s with
      | Some (sx, _) => sx
      | None => None
      end
  | None => fst (fst acc)
  end.
Proof.
  induction l as [|s l IH] using rev_ind; [reflexivity|].
  rewrite fold_left_app, rev_unit; simpl.
  rewrite pickFormatters_x.
  destruct (sFormatters s) as [[sx sy]|] eqn:E; simpl; rewrite ?E;
    [reflexivity|exact IH].
Qed.

(** C10: with no formatter on the X axis, the X formatter that
    [getValueFormatters] returns is the X formatter of the last series in the
    list that provides formatters, whichever Y axis that series is on; a
    formatter set on the X axis is returned instead of any of them. *)
Theorem getValueFormatters_x (c : Chart) :
  (xValueFormatter (cXAxis c) = None ->
   fst (fst (getValueFormatters c)) = lastSeriesXFormatter (cSeries c))
  /\ (forall fmt, xValueFormatter (cXAxis c) = Some fmt ->
      fst (fst (getValueFormatters c)) = Some fmt).
Proof.
  unfold getValueFormatters, lastSeriesXFormatter.
  pose proof (fold_pickFormatters_x (cSeries c) (None, None, None)) as Hx.
  destruct (fold_left pickFormatters (cSeries c) (None, None, None))
    as [[x y] ya]; simpl in *.
  split.
  - intros Hnone; rewrite Hnone; simpl. rewrite Hx.
    destruct (find _ (rev (cSeries c))); reflexivity.
  - intros fmt Hsome; rewrite Hsome; reflexivity.
Qed.

End RenderFacts.


(** ** The axis layout with footprints along the edges of the canvas box *)

Section FootprintLayout.

Context `{Externals}.







Lemma axesCycle_eq (X : Externals) (c : Chart) (r : Renderer)
    (xr yr yra : loc) (xf yf yfa : option ValueFormatter) (b : Box)
    (h : Store) :
  @axesCycle X c r xr yr yra xf yf yfa (b, h) =
  let ticks := @getAxesTicks X c r h xr yr yra xf yf yfa in
  let canvasBox :=
    @getAxesAdjustedCanvasBox X c r h b xr yr yra (fst (fst ticks))
                              (snd (fst ticks)) (snd ticks) in
  (canvasBox, setRangeDomains canvasBox xr yr yra h).
Proof.
  unfold axesCycle; cbn [fst snd].
  destruct (@getAxesTicks X c r h xr yr yra xf yf yfa) as [[xt yt] yta];
    reflexivity.
Qed.





End FootprintLayout.

(** ** getRanges and the store *)

Section RangeFacts.

Context `{Externals}.

Lemma getRanges_eq (c : Chart) (h : Store) :
  getRanges c h =
  let '(xr, yr, yra, h3) := allocRanges c h in
  let e := seriesExtents c in
  (xr, yr, yra, resolveYAlt c e yra (resolveY c e yr (resolveX c e xr h3))).
Proof.
  unfold getRanges, allocRanges, resolveX, resolveY, resolveYAlt, seriesExtents.
  destruct (rangeOrNew (xRange (cXAxis c)) h) as [xr h1]; cbn [fst snd].
  destruct (rangeOrNew (yRange (cYAxis c)) h1) as [yr h2]; cbn [fst snd].
  destruct (rangeOrNew (yRange (cYAxisSecondary c)) h2) as [yra h3];
    cbn [fst snd].
  destruct (tickExtremes (xTicks (cXAxis c))) as [xlo xhi].
  destruct (tickExtremes (yTicks (cYAxis c))) as [ylo yhi].
  reflexivity.
Qed.


Lemma rangeOrNew_old (r : option loc) (h : Store) (l : loc) :
  (l < length h)%nat -> get (snd (rangeOrNew r h)) l = get h l.
Proof.
  intros Hl; destruct r; simpl; [reflexivity|].
  unfold get; apply app_nth1; exact Hl.
Qed.

Lemma rangeOrNew_length (r : option loc) (h : Store) :
  (length h <= length (snd (rangeOrNew r h)))%nat.
Proof. destruct r; simpl; [lia|]. rewrite length_app; simpl; lia. Qed.

Lemma get_fresh (h : Store) : get (h ++ [zeroRange]) (length h) = zeroRange.
Proof. unfold get; rewrite app_nth2, Nat.sub_diag by lia; reflexivity. Qed.

(** A range object that [getRanges] does not resolve is not written by the
    allocation. *)
Lemma allocRanges_old (c : Chart) (h : Store) (l : loc) :
  (l < length h)%nat ->
  get (snd (allocRanges c h)) l = get h l.
Proof.
  intros Hl; unfold allocRanges; cbn [fst snd].
  pose proof (rangeOrNew_length (xRange (cXAxis c)) h) as L1.
  pose proof (rangeOrNew_length (yRange (cYAxis c))
                (snd (rangeOrNew (xRange (cXAxis c)) h))) as L2.
  rewrite !rangeOrNew_old by lia; reflexivity.
Qed.


Lemma get_SetMin_other l l' v h : l <> l' -> get (SetMin l v h) l' = get h l'.
Proof. apply get_upd_other. Qed.
Lemma get_SetMax_other l l' v h : l <> l' -> get (SetMax l v h) l' = get h l'.
Proof. apply get_upd_other. Qed.
Lemma get_SetDomain_other l l' v h :
  l <> l' -> get (SetDomain l v h) l' = get h l'.
Proof. apply get_upd_other. Qed.

Lemma get_roundRange_other l l' h : l <> l' -> get (roundRange l h) l' = get h l'.
Proof.
  intros Hne; unfold roundRange.
  rewrite get_SetMax_other, get_SetMin_other by exact Hne; reflexivity.
Qed.

Lemma resolveX_other c e l l' h : l <> l' -> get (resolveX c e l h) l' = get h l'.
Proof.
  intros Hne; unfold resolveX.
  destruct (0 <? length (xTicks (cXAxis c)))%nat;
    [|destruct (RangeIsZero (get h l))];
    rewrite ?get_SetMax_other, ?get_SetMin_other by exact Hne; reflexivity.
Qed.

Lemma resolveY_other c e l l' h : l <> l' -> get (resolveY c e l h) l' = get h l'.
Proof.
  intros Hne; unfold resolveY.
  destruct (0 <? length (yTicks (cYAxis c)))%nat;
    [|destruct (RangeIsZero (get h l))];
    rewrite ?get_roundRange_other, ?get_SetMax_other, ?get_SetMin_other
      by exact Hne; reflexivity.
Qed.

Lemma resolveYAlt_other c e l l' h :
  l <> l' -> get (resolveYAlt c e l h) l' = get h l'.
Proof.
  intros Hne; unfold resolveYAlt.
  destruct (0 <? length (yTicks (cYAxisSecondary c)))%nat;
    [|destruct (seriesMappedToSecondaryAxis e && RangeIsZero (get h l))];
    rewrite ?get_roundRange_other, ?get_SetMax_other, ?get_SetMin_other
      by exact Hne; reflexivity.
Qed.



End RangeFacts.

(** ** What Render writes *)

Section RenderWrites.

Context `{Externals}.





End RenderWrites.

(** ** checkRanges and the secondary axis *)

Section SecondaryCheck.

Lemma shown_secondary_hasSecondarySeries (c : Chart) :
  existsb (fun s => shown s && YAxisType_eqb (sYAxis s) YAxisSecondary)
          (cSeries c) = true ->
  hasSecondarySeries c = true.
Proof.
  unfold hasSecondarySeries; rewrite !existsb_exists.
  intros [s [Hin Hs]]; exists s; split; [exact Hin|].
  apply andb_true_iff in Hs; tauto.
Qed.

(** C2, as the code has it: with valid X and Y ranges, [checkRanges]
    validates the secondary range whenever a shown series is on the secondary
    axis, returning the range error exactly when its delta is zero, infinite
    or NaN; and when no series at all is on the secondary axis the secondary
    range is not looked at, whatever the secondary axis was configured with,
    and [checkRanges] accepts. *)
Theorem checkRanges_secondary (c : Chart) (h : Store) (xr yr yra : loc) :
  invalidDelta (GetDelta (get h xr)) = false ->
  invalidDelta (GetDelta (get h yr)) = false ->
  (existsb (fun s => shown s && YAxisType_eqb (sYAxis s) YAxisSecondary)
           (cSeries c) = true ->
   checkRanges c h xr yr yra =
   if invalidDelta (GetDelta (get h yra)) then
     Some (ErrNew "Invalid (infinite or NaN) y-secondary-range delta")
   else None)
  /\ (existsb (fun s => YAxisType_eqb (sYAxis s) YAxisSecondary) (cSeries c)
      = false ->
      checkRanges c h xr yr yra = None).
Proof.
  intros Hx Hy; unfold checkRanges; rewrite Hx, Hy; split.
  - intros Hs; rewrite (shown_secondary_hasSecondarySeries c Hs); reflexivity.
  - intros Hn; unfold hasSecondarySeries; rewrite Hn; reflexivity.
Qed.

End SecondaryCheck.

(** ** The extremes folded from the series *)

Section ExtentsFacts.

Let ordered (axis : YAxisType) (e : Extents) : Prop :=
  le (axisMin axis e) (axisMax axis e).

Lemma Min_Max_around (m M v : float64) :
  is_num m -> is_num M -> is_num v -> le (Min m v) (Max M v).
Proof.
  intros Hm HM Hv.
  apply (le_trans _ v); [apply Min_le_r|apply Max_ge_r]; assumption.
Qed.

Lemma Min_Max_widen (m M v : float64) :
  is_num v -> le m M -> le (Min m v) (Max M v).
Proof.
  intros Hv Hle.
  pose proof (le_is_num_l _ _ Hle) as Hm.
  pose proof (le_is_num_r _ _ Hle) as HM.
  apply (le_trans _ m); [apply Min_le_l; assumption|].
  apply (le_trans _ M); [exact Hle|apply Max_ge_l; assumption].
Qed.

Lemma scanValue_numeric (ax : YAxisType) (e : Extents) (p : float64 * float64) :
  numericExtents e -> is_num (fst p) -> is_num (snd p) ->
  numericExtents (scanValue ax e p).
Proof.
  destruct p as [vx vy]; unfold numericExtents; simpl.
  intros [H1 [H2 [H3 [H4 [H5 H6]]]]] Hx Hy.
  destruct ax; simpl; repeat split;
    auto using Min_is_num, Max_is_num.
Qed.

Lemma scanValue_ordered (axis ax : YAxisType) (e : Extents)
    (p : float64 * float64) :
  numericExtents e -> is_num (fst p) -> is_num (snd p) ->
  ordered axis e \/ ax = axis ->
  ordered axis (scanValue ax e p).
Proof.
  destruct p as [vx vy]; unfold numericExtents, ordered; simpl.
  intros [H1 [H2 [H3 [H4 [H5 H6]]]]] Hx Hy Hor.
  destruct ax, axis; simpl;
    (destruct Hor as [Hor|Hor]; [|try discriminate Hor]); simpl in *;
    auto using Min_Max_around, Min_Max_widen.
Qed.

Lemma scanBoundedValue_numeric (ax : YAxisType) (e : Extents)
    (p : float64 * float64 * float64) :
  numericExtents e ->
  is_num (fst (fst p)) -> is_num (snd (fst p)) -> is_num (snd p) ->
  numericExtents (scanBoundedValue ax e p).
Proof.
  destruct p as [[vx vy1] vy2]; unfold numericExtents; simpl.
  intros [H1 [H2 [H3 [H4 [H5 H6]]]]] Hx Hy1 Hy2.
  destruct ax; simpl; repeat split;
    auto using Min_is_num, Max_is_num.
Qed.

Lemma scanBoundedValue_ordered (axis ax : YAxisType) (e : Extents)
    (p : float64 * float64 * float64) :
  numericExtents e ->
  is_num (fst (fst p)) -> is_num (snd (fst p)) -> is_num (snd p) ->
  ordered axis e \/ ax = axis ->
  ordered axis (scanBoundedValue ax e p).
Proof.
  destruct p as [[vx vy1] vy2]; unfold numericExtents, ordered; simpl.
  intros [H1 [H2 [H3 [H4 [H5 H6]]]]] Hx Hy1 Hy2 Hor.
  destruct ax, axis; simpl;
    (destruct Hor as [Hor|Hor]; [|try discriminate Hor]); simpl in *;
    auto using Min_Max_around, Min_Max_widen, Min_is_num, Max_is_num.
Qed.

Lemma scanValue_mapped (ax : YAxisType) (e : Extents) (p : float64 * float64) :
  seriesMappedToSecondaryAxis e = true \/ ax = YAxisSecondary ->
  seriesMappedToSecondaryAxis (scanValue ax e p) = true.
Proof.
  destruct p as [vx vy]; intros [Hm| ->]; [destruct ax|]; simpl; auto.
Qed.

Lemma scanBoundedValue_mapped (ax : YAxisType) (e : Extents)
    (p : float64 * float64 * float64) :
  seriesMappedToSecondaryAxis e = true \/ ax = YAxisSecondary ->
  seriesMappedToSecondaryAxis (scanBoundedValue ax e p) = true.
Proof.
  destruct p as [[vx vy1] vy2]; intros [Hm| ->]; [destruct ax|]; simpl; auto.
Qed.

Lemma fold_scanValue (axis ax : YAxisType) (points : list (float64 * float64))
    (e : Extents) :
  numericExtents e ->
  Forall (fun p : float64 * float64 => is_num (fst p) /\ is_num (snd p))
         points ->
  let e' := fold_left (scanValue ax) points e in
  numericExtents e'
  /\ (ordered axis e \/ (ax = axis /\ points <> []) -> ordered axis e')
  /\ (seriesMappedToSecondaryAxis e = true
      \/ (ax = YAxisSecondary /\ points <> []) ->
      seriesMappedToSecondaryAxis e' = true).
Proof.
  revert e; induction points as [|p points IH]; intros e He Hp; simpl.
  - split; [exact He|split]; intros [Ho|[_ Hne]]; congruence || auto.
  - inversion Hp as [|p' l' [Hx Hy] Hrest]; subst.
    destruct (IH (scanValue ax e p)
                (scanValue_numeric ax e p He Hx Hy) Hrest) as [Hn [Ho Hm]].
    split; [exact Hn|split].
    + intros Hor; apply Ho; left.
      apply scanValue_ordered; auto. destruct Hor as [Hor|[Hax _]]; auto.
    + intros Hor; apply Hm; left.
      apply scanValue_mapped. destruct Hor as [Hor|[Hax _]]; auto.
Qed.

Lemma fold_scanBoundedValue (axis ax : YAxisType)
    (points : list (float64 * float64 * float64)) (e : Extents) :
  numericExtents e ->
  Forall (fun p : float64 * float64 * float64 =>
            is_num (fst (fst p)) /\ is_num (snd (fst p)) /\ is_num (snd p))
         points ->
  let e' := fold_left (scanBoundedValue ax) points e in
  numericExtents e'
  /\ (ordered axis e \/ (ax = axis /\ points <> []) -> ordered axis e')
  /\ (seriesMappedToSecondaryAxis e = true
      \/ (ax = YAxisSecondary /\ points <> []) ->
      seriesMappedToSecondaryAxis e' = true).
Proof.
  revert e; induction points as [|p points IH]; intros e He Hp; simpl.
  - split; [exact He|split]; intros [Ho|[_ Hne]]; congruence || auto.
  - inversion Hp as [|p' l' [Hx [Hy1 Hy2]] Hrest]; subst.
    destruct (IH (scanBoundedValue ax e p)
                (scanBoundedValue_numeric ax e p He Hx Hy1 Hy2) Hrest)
      as [Hn [Ho Hm]].
    split; [exact Hn|split].
    + intros Hor; apply Ho; left.
      apply scanBoundedValue_ordered; auto.
      destruct Hor as [Hor|[Hax _]]; auto.
    + intros Hor; apply Hm; left.
      apply scanBoundedValue_mapped. destruct Hor as [Hor|[Hax _]]; auto.
Qed.

Lemma YAxisType_eqb_eq (a b : YAxisType) : YAxisType_eqb a b = true -> a = b.
Proof. destruct a, b; simpl; congruence. Qed.

Lemma nonempty_length {A} (l : list A) : (0 <? length l)%nat = true -> l <> [].
Proof. destruct l; simpl; [discriminate|discriminate]. Qed.

Lemma scanSeries_facts (axis : YAxisType) (s : Series) (e : Extents) :
  numericExtents e -> seriesNumeric s ->
  let e' := scanSeries e s in
  numericExtents e'
  /\ (ordered axis e \/ contributes axis s = true -> ordered axis e')
  /\ (seriesMappedToSecondaryAxis e = true
      \/ contributes YAxisSecondary s = true ->
      seriesMappedToSecondaryAxis e' = true).
Proof.
  intros He Hs; unfold scanSeries, contributes, seriesNumeric, shown in *.
  destruct (StyleIsZero (sStyle s) || Show (sStyle s)); simpl.
  - destruct (sBounded s) as [points|].
    + destruct (fold_scanBoundedValue axis (sYAxis s) points e He Hs)
        as [Hn [Ho Hm]].
      split; [exact Hn|split].
      * intros [Hor|Hc]; apply Ho; auto. right.
        apply andb_true_iff in Hc; destruct Hc as [Hax Hlen].
        split; [apply YAxisType_eqb_eq, Hax|apply nonempty_length, Hlen].
      * intros [Hor|Hc]; apply Hm; auto. right.
        apply andb_true_iff in Hc; destruct Hc as [Hax Hlen].
        split; [apply YAxisType_eqb_eq, Hax|apply nonempty_length, Hlen].
    + destruct (sValues s) as [points|].
      * destruct (fold_scanValue axis (sYAxis s) points e He Hs)
          as [Hn [Ho Hm]].
        split; [exact Hn|split].
        -- intros [Hor|Hc]; apply Ho; auto. right.
           apply andb_true_iff in Hc; destruct Hc as [Hax Hlen].
           split; [apply YAxisType_eqb_eq, Hax|apply nonempty_length, Hlen].
        -- intros [Hor|Hc]; apply Hm; auto. right.
           apply andb_true_iff in Hc; destruct Hc as [Hax Hlen].
           split; [apply YAxisType_eqb_eq, Hax|apply nonempty_length, Hlen].
      * split; [exact He|split]; intros [Hor|Hc]; auto;
          rewrite andb_false_r in Hc; discriminate.
  - split; [exact He|split]; intros [Hor|Hc]; auto; discriminate.
Qed.

Lemma fold_scanSeries (axis : YAxisType) (l : list Series) (e : Extents) :
  numericExtents e -> Forall seriesNumeric l ->
  let e' := fold_left scanSeries l e in
  numericExtents e'
  /\ (ordered axis e \/ existsb (contributes axis) l = true -> ordered axis e')
  /\ (seriesMappedToSecondaryAxis e = true
      \/ existsb (contributes YAxisSecondary) l = true ->
      seriesMappedToSecondaryAxis e' = true).
Proof.
  revert e; induction l as [|s l IH]; intros e He Hl; simpl.
  - split; [exact He|split]; intros [Ho|Hf]; auto; discriminate.
  - inversion Hl as [|s' l' Hs Hrest]; subst.
    destruct (scanSeries_facts axis s e He Hs) as [Hn [Ho Hm]].
    destruct (IH (scanSeries e s) Hn Hrest) as [Hn' [Ho' Hm']].
    split; [exact Hn'|split].
    + intros [Hor|Hex]; apply Ho'; auto.
      apply orb_true_iff in Hex; destruct Hex as [Hc|Hex]; auto.
    + intros [Hor|Hex]; apply Hm'; auto.
      apply orb_true_iff in Hex; destruct Hex as [Hc|Hex]; auto.
Qed.

Lemma numeric_initExtents : numericExtents initExtents.
Proof. repeat split. Qed.

(** With numbers for values, the folded minimum of an axis that some shown
    series contributes a point to is not above its folded maximum; and a
    contribution to the secondary axis is recorded. *)
Lemma seriesExtents_ordered (axis : YAxisType) (c : Chart) :
  Forall seriesNumeric (cSeries c) ->
  existsb (contributes axis) (cSeries c) = true ->
  le (axisMin axis (seriesExtents c)) (axisMax axis (seriesExtents c))
  /\ (axis = YAxisSecondary ->
      seriesMappedToSecondaryAxis (seriesExtents c) = true).
Proof.
  intros Hn Hex; unfold seriesExtents.
  destruct (fold_scanSeries axis (cSeries c) initExtents numeric_initExtents Hn)
    as [_ [Ho _]].
  destruct (fold_scanSeries YAxisSecondary (cSeries c) initExtents
              numeric_initExtents Hn) as [_ [_ Hm]].
  split; [apply Ho; auto|].
  intros ->; apply Hm; auto.
Qed.

Lemma scanValue_flag (ax : YAxisType) (e : Extents) (p : float64 * float64) :
  seriesMappedToSecondaryAxis (scanValue ax e p) =
  seriesMappedToSecondaryAxis e || YAxisType_eqb ax YAxisSecondary.
Proof.
  destruct p as [vx vy], ax; simpl;
    [rewrite orb_false_r|rewrite orb_true_r]; reflexivity.
Qed.

Lemma scanBoundedValue_flag (ax : YAxisType) (e : Extents)
    (p : float64 * float64 * float64) :
  seriesMappedToSecondaryAxis (scanBoundedValue ax e p) =
  seriesMappedToSecondaryAxis e || YAxisType_eqb ax YAxisSecondary.
Proof.
  destruct p as [[vx vy1] vy2], ax; simpl;
    [rewrite orb_false_r|rewrite orb_true_r]; reflexivity.
Qed.

Lemma fold_scanValue_flag (ax : YAxisType) (points : list (float64 * float64))
    (e : Extents) :
  seriesMappedToSecondaryAxis (fold_left (scanValue ax) points e) =
  seriesMappedToSecondaryAxis e
  || (YAxisType_eqb ax YAxisSecondary && (0 <? length points)%nat).
Proof.
  revert e; induction points as [|p points IH]; intros e; simpl.
  - rewrite andb_false_r, orb_false_r; reflexivity.
  - rewrite IH, scanValue_flag.
    destruct (seriesMappedToSecondaryAxis e), (YAxisType_eqb ax YAxisSecondary),
      (0 <? length points)%nat; reflexivity.
Qed.

Lemma fold_scanBoundedValue_flag (ax : YAxisType)
    (points : list (float64 * float64 * float64)) (e : Extents) :
  seriesMappedToSecondaryAxis (fold_left (scanBoundedValue ax) points e) =
  seriesMappedToSecondaryAxis e
  || (YAxisType_eqb ax YAxisSecondary && (0 <? length points)%nat).
Proof.
  revert e; induction points as [|p points IH]; intros e; simpl.
  - rewrite andb_false_r, orb_false_r; reflexivity.
  - rewrite IH, scanBoundedValue_flag.
    destruct (seriesMappedToSecondaryAxis e), (YAxisType_eqb ax YAxisSecondary),
      (0 <? length points)%nat; reflexivity.
Qed.

Lemma scanSeries_flag (s : Series) (e : Extents) :
  seriesMappedToSecondaryAxis (scanSeries e s) =
  seriesMappedToSecondaryAxis e || contributes YAxisSecondary s.
Proof.
  unfold scanSeries, contributes, shown.
  destruct (StyleIsZero (sStyle s) || Show (sStyle s)); simpl;
    [|rewrite orb_false_r; reflexivity].
  destruct (sBounded s) as [points|];
    [apply fold_scanBoundedValue_flag|].
  destruct (sValues s) as [points|]; [apply fold_scanValue_flag|].
  rewrite andb_false_r, orb_false_r; reflexivity.
Qed.

(** The flag of [getRanges] is set exactly when a shown series on the
    secondary axis has a point. *)
Lemma seriesMapped_iff (c : Chart) :
  seriesMappedToSecondaryAxis (seriesExtents c) =
  existsb (contributes YAxisSecondary) (cSeries c).
Proof.
  unfold seriesExtents.
  assert (G : forall l e,
            seriesMappedToSecondaryAxis (fold_left scanSeries l e) =
            seriesMappedToSecondaryAxis e
            || existsb (contributes YAxisSecondary) l).
  { induction l as [|s l IH]; intros e; simpl.
    - rewrite orb_false_r; reflexivity.
    - rewrite IH, scanSeries_flag, orb_assoc; reflexivity. }
  rewrite G; reflexivity.
Qed.

End ExtentsFacts.

(** ** The ranges that are computed from the series *)

Section AutoRanges.

Context `{Externals}.

Lemma get_app_old (h k : Store) (l : loc) :
  (l < length h)%nat -> get (h ++ k) l = get h l.
Proof. intros Hl; unfold get; apply app_nth1; exact Hl. Qed.

Lemma get_app_fresh (h : Store) (l : loc) :
  l = length h -> get (h ++ [zeroRange]) l = zeroRange.
Proof. intros ->; apply get_fresh. Qed.

Lemma RangeIsZero_zeroRange : RangeIsZero zeroRange = true.
Proof. reflexivity. Qed.

(** With separate range objects, the three resolved ranges are three
    different objects of the store, and one that was unset, or is new, is
    unresolved after the allocation. *)
Lemma allocRanges_separate (c : Chart) (h : Store) :
  rangesSeparate c h ->
  let '(xr, yr, yra, h3) := allocRanges c h in
  ((xr < length h3)%nat /\ (yr < length h3)%nat /\ (yra < length h3)%nat)
  /\ (xr <> yr /\ xr <> yra /\ yr <> yra)
  /\ (rangeUnset (xRange (cXAxis c)) h -> RangeIsZero (get h3 xr) = true)
  /\ (rangeUnset (yRange (cYAxis c)) h -> RangeIsZero (get h3 yr) = true)
  /\ (rangeUnset (yRange (cYAxisSecondary c)) h ->
      RangeIsZero (get h3 yra) = true).
Proof.
  intros [Vx [Vy [Vya [Dxy [Dxya Dyya]]]]].
  unfold allocRanges, rangeOrNew, alloc, rangeUnset.
  destruct (xRange (cXAxis c)) as [lx|];
    destruct (yRange (cYAxis c)) as [ly|];
    destruct (yRange (cYAxisSecondary c)) as [lya|];
    cbn [fst snd];
    repeat match goal with
    | V : forall l, Some ?a = Some l -> _ |- _ =>
        specialize (V a eq_refl)
    | V : forall l, None = Some l -> _ |- _ => clear V
    end;
    rewrite ?length_app; cbn [length];
    (split; [repeat split; lia|]);
    (split; [repeat split; solve [lia | congruence]|]);
    repeat split; intros Hz;
    repeat (rewrite get_app_old by (rewrite ?length_app; cbn [length]; lia));
    rewrite ?get_app_fresh by (rewrite ?length_app; cbn [length]; lia);
    auto using RangeIsZero_zeroRange.
Qed.

Lemma get_SetMin_SetMax (l : loc) (m M : float64) (h : Store) :
  (l < length h)%nat ->
  get (SetMax l M (SetMin l m h)) l = mkRange m M (Domain (get h l)).
Proof.
  intros Hl; unfold SetMax, SetMin.
  rewrite get_upd_same by (rewrite length_upd; exact Hl).
  rewrite get_upd_same by exact Hl; reflexivity.
Qed.

Lemma length_SetMin_SetMax (l : loc) (m M : float64) (h : Store) :
  length (SetMax l M (SetMin l m h)) = length h.
Proof. unfold SetMax, SetMin; rewrite !length_upd; reflexivity. Qed.

(** The bounds an auto-computed Y range ends with. *)
Lemma get_roundRange (l : loc) (m M : float64) (h : Store) :
  (l < length h)%nat ->
  let g := GetRoundToForDelta (sub M m) in
  get (roundRange l (SetMax l M (SetMin l m h))) l =
  mkRange (RoundDown m g) (RoundUp M g) (Domain (get h l)).
Proof.
  intros Hl g; unfold roundRange.
  rewrite get_SetMin_SetMax by (rewrite length_SetMin_SetMax; exact Hl).
  rewrite get_SetMin_SetMax by exact Hl; reflexivity.
Qed.

Lemma length_resolveX c e l h : length (resolveX c e l h) = length h.
Proof.
  unfold resolveX.
  destruct (0 <? length (xTicks (cXAxis c)))%nat;
    [|destruct (RangeIsZero (get h l))];
    rewrite ?length_SetMin_SetMax; reflexivity.
Qed.

Lemma length_resolveY c e l h : length (resolveY c e l h) = length h.
Proof.
  unfold resolveY, roundRange.
  destruct (0 <? length (yTicks (cYAxis c)))%nat;
    [|destruct (RangeIsZero (get h l))];
    rewrite ?length_SetMin_SetMax; reflexivity.
Qed.

(** C4, as the code has it: with separate range objects, a Y axis without
    ticks and without a resolved range, to which a shown series contributes a
    point, gets exactly the folded minimum rounded down and the folded maximum
    rounded up by the rounding helpers, at the granularity chosen for their
    difference; when no value of the series is NaN, the folded minimum is not
    above the folded maximum.  An X axis without ticks and without a resolved
    range gets exactly the folded X minimum and maximum, unrounded. *)
Theorem getRanges_auto_ranges (c : Chart) (h : Store) :
  rangesSeparate c h ->
  let e := seriesExtents c in
  let '(xr, yr, yra, h') := getRanges c h in
  (yTicks (cYAxis c) = [] ->
   rangeUnset (yRange (cYAxis c)) h ->
   existsb (contributes YAxisPrimary) (cSeries c) = true ->
   let g := GetRoundToForDelta (sub (maxy e) (miny e)) in
   RMin (get h' yr) = RoundDown (miny e) g
   /\ RMax (get h' yr) = RoundUp (maxy e) g
   /\ (Forall seriesNumeric (cSeries c) -> le (miny e) (maxy e)))
  /\ (yTicks (cYAxisSecondary c) = [] ->
      rangeUnset (yRange (cYAxisSecondary c)) h ->
      existsb (contributes YAxisSecondary) (cSeries c) = true ->
      let g := GetRoundToForDelta (sub (maxya e) (minya e)) in
      RMin (get h' yra) = RoundDown (minya e) g
      /\ RMax (get h' yra) = RoundUp (maxya e) g
      /\ (Forall seriesNumeric (cSeries c) -> le (minya e) (maxya e)))
  /\ (xTicks (cXAxis c) = [] ->
      rangeUnset (xRange (cXAxis c)) h ->
      RMin (get h' xr) = minx e /\ RMax (get h' xr) = maxx e).
Proof.
  intros Hsep e; rewrite getRanges_eq.
  pose proof (allocRanges_separate c h Hsep) as Ha.
  destruct (allocRanges c h) as [[[xr yr] yra] h3].
  destruct Ha as [[Lx [Ly Lya]] [[Nxy [Nxya Nyya]] [Zx [Zy Zya]]]].
  cbv beta iota zeta; fold e.
  split; [|split].
  - intros Ht Hu Hc.
    rewrite resolveYAlt_other by congruence.
    unfold resolveY; rewrite Ht; simpl.
    rewrite resolveX_other by congruence.
    rewrite (Zy Hu).
    rewrite get_roundRange by (rewrite length_resolveX; exact Ly).
    simpl.
    split; [reflexivity|split; [reflexivity|]].
    intros Hnum.
    exact (proj1 (seriesExtents_ordered YAxisPrimary c Hnum Hc)).
  - intros Ht Hu Hc.
    assert (Hmap : seriesMappedToSecondaryAxis e = true)
      by (subst e; rewrite seriesMapped_iff; exact Hc).
    unfold resolveYAlt; rewrite Ht, Hmap; simpl.
    rewrite resolveY_other, resolveX_other by congruence.
    rewrite (Zya Hu).
    rewrite get_roundRange
      by (rewrite length_resolveY, length_resolveX; exact Lya).
    simpl.
    split; [reflexivity|split; [reflexivity|]].
    intros Hnum.
    exact (proj1 (seriesExtents_ordered YAxisSecondary c Hnum Hc)).
  - intros Ht Hu.
    rewrite resolveYAlt_other, resolveY_other by congruence.
    unfold resolveX; rewrite Ht; simpl.
    rewrite (Zx Hu).
    rewrite get_SetMin_SetMax by exact Lx.
    simpl; auto.
Qed.

End AutoRanges.

(** ** The ranges that are taken from explicit ticks *)

Section TickRanges.

Context `{Externals}.

Lemma tickExtremes_folds (ticks : list Tick) (lo hi : float64) :
  fold_left
    (fun acc t => (Min (fst acc) (Value t), Max (snd acc) (Value t)))
    ticks (lo, hi) =
  (fold_left Min (tickValues ticks) lo, fold_left Max (tickValues ticks) hi).
Proof.
  revert lo hi; induction ticks as [|t ticks IH]; intros lo hi; simpl;
    [reflexivity|apply IH].
Qed.

Lemma finite64_is_num (v : float64) : finite64 v -> is_num v.
Proof. intros [_ Hle]; exact (le_is_num_l _ _ Hle). Qed.

(** Over a non-empty list of finite tick values, the loop over the ticks
    ends with the smallest and the largest of them. *)
Lemma tickExtremes_least_greatest (ticks : list Tick) :
  ticks <> [] ->
  Forall finite64 (tickValues ticks) ->
  is_least (fst (tickExtremes ticks)) (tickValues ticks)
  /\ is_greatest (snd (tickExtremes ticks)) (tickValues ticks).
Proof.
  intros Hne Hfin; unfold tickExtremes; rewrite tickExtremes_folds.
  cbn [fst snd].
  assert (Hnum : Forall is_num (tickValues ticks)).
  { eapply Forall_impl; [|exact Hfin]. exact finite64_is_num. }
  assert (Hex : exists v, In v (tickValues ticks)).
  { destruct ticks as [|t ticks]; [congruence|].
    exists (Value t); left; reflexivity. }
  destruct Hex as [v Hv].
  pose proof (proj1 (Forall_forall _ _) Hfin v Hv) as [Hlo Hhi].
  split.
  - destruct (fold_Min_spec (tickValues ticks) MaxFloat64 eq_refl Hnum)
      as [Hin [_ Hall]].
    split; [|exact Hall].
    destruct Hin as [E|Hin]; [|exact Hin].
    rewrite E. pose proof (Hall v Hv) as Hrv; rewrite E in Hrv.
    rewrite <- (le_MaxFloat64_antisym v Hrv Hhi); exact Hv.
  - destruct (fold_Max_spec (tickValues ticks) (neg MaxFloat64) eq_refl Hnum)
      as [Hin [_ Hall]].
    split; [|exact Hall].
    destruct Hin as [E|Hin]; [|exact Hin].
    rewrite E. pose proof (Hall v Hv) as Hrv; rewrite E in Hrv.
    rewrite <- (le_neg_MaxFloat64_antisym v Hrv Hlo); exact Hv.
Qed.

Lemma ticks_nonempty (ticks : list Tick) :
  ticks <> [] -> (0 <? length ticks)%nat = true.
Proof. destruct ticks; [congruence|reflexivity]. Qed.

(** The X axis and the primary Y axis: explicit ticks settle the range, at
    the smallest and the largest tick value of the axis. *)
Lemma getRanges_ticks_primary_axes (c : Chart) (h : Store) :
  rangesSeparate c h ->
  let '(xr, yr, yra, h') := getRanges c h in
  (xTicks (cXAxis c) <> [] ->
   Forall finite64 (tickValues (xTicks (cXAxis c))) ->
   is_least (RMin (get h' xr)) (tickValues (xTicks (cXAxis c)))
   /\ is_greatest (RMax (get h' xr)) (tickValues (xTicks (cXAxis c))))
  /\ (yTicks (cYAxis c) <> [] ->
      Forall finite64 (tickValues (yTicks (cYAxis c))) ->
      is_least (RMin (get h' yr)) (tickValues (yTicks (cYAxis c)))
      /\ is_greatest (RMax (get h' yr)) (tickValues (yTicks (cYAxis c)))).
Proof.
  intros Hsep; rewrite getRanges_eq.
  pose proof (allocRanges_separate c h Hsep) as Ha.
  destruct (allocRanges c h) as [[[xr yr] yra] h3].
  destruct Ha as [[Lx [Ly Lya]] [[Nxy [Nxya Nyya]] _]].
  cbv beta iota zeta; split.
  - intros Hne Hfin.
    rewrite resolveYAlt_other, resolveY_other by congruence.
    unfold resolveX; rewrite (ticks_nonempty _ Hne).
    rewrite get_SetMin_SetMax by exact Lx; cbn [RMin RMax].
    apply tickExtremes_least_greatest; assumption.
  - intros Hne Hfin.
    rewrite resolveYAlt_other by congruence.
    unfold resolveY; rewrite (ticks_nonempty _ Hne).
    rewrite get_SetMin_SetMax by (rewrite length_resolveX; exact Ly).
    cbn [RMin RMax].
    apply tickExtremes_least_greatest; assumption.
Qed.

(** C1, where the code departs from it: when the secondary Y axis carries
    ticks, the bounds of its resolved range are the extremes of the tick
    list of the primary Y axis, not of its own. *)
Theorem getRanges_secondary_ticks_from_primary_axis (c : Chart) (h : Store) :
  rangesSeparate c h ->
  yTicks (cYAxisSecondary c) <> [] ->
  let '(xr, yr, yra, h') := getRanges c h in
  RMin (get h' yra) = fst (tickExtremes (yTicks (cYAxis c)))
  /\ RMax (get h' yra) = snd (tickExtremes (yTicks (cYAxis c))).
Proof.
  intros Hsep Hne; rewrite getRanges_eq.
  pose proof (allocRanges_separate c h Hsep) as Ha.
  destruct (allocRanges c h) as [[[xr yr] yra] h3].
  destruct Ha as [[Lx [Ly Lya]] _].
  cbv beta iota zeta.
  unfold resolveYAlt; rewrite (ticks_nonempty _ Hne).
  rewrite get_SetMin_SetMax
    by (rewrite length_resolveY, length_resolveX; exact Lya).
  split; reflexivity.
Qed.

End TickRanges.

(** * Worked examples *)

Section Worked.

Import Examples.

Lemma separate_without_ranges (c : Chart) (h : Store) :
  xRange (cXAxis c) = None -> yRange (cYAxis c) = None ->
  yRange (cYAxisSecondary c) = None ->
  rangesSeparate c h.
Proof.
  intros Hx Hy Hya; unfold rangesSeparate; rewrite Hx, Hy, Hya.
  repeat split; intros l E; discriminate E.
Qed.

(** Ticks at 0, 50 and 100 on the secondary axis and none on the primary
    one leave the secondary range at the sentinels of the loop. *)
Lemma secondary_ticks_witness :
  let '(xr, yr, yra, h') := @getRanges env secondaryTicks [] in
  RMin (get h' yra) = MaxFloat64 /\ RMax (get h' yra) = neg MaxFloat64.
Proof.
  exact (@getRanges_secondary_ticks_from_primary_axis env secondaryTicks []
           (separate_without_ranges secondaryTicks [] eq_refl eq_refl eq_refl)
           ltac:(discriminate)).
Defined.

(** The primary axes do take their range from their own ticks. *)
Example primary_ticks_example :
  let c := chartOf noXAxis (mkYAxis zeroStyle YAxisPrimary None None ticks3)
                   noYAxis [line YAxisPrimary zeroStyle] in
  let '(xr, yr, yra, h') := @getRanges env c [] in
  RMin (get h' yr) = f 0 /\ RMax (get h' yr) = f 100.
Proof. vm_compute; split; reflexivity. Qed.

(** An explicit secondary range of zero delta, and no series on the
    secondary axis: the secondary range is not validated and the render
    succeeds. *)
Lemma explicit_secondary_not_validated :
  explicitSecondary explicitSecondaryRange = true
  /\ (let '(xr, yr, yra, h1) :=
        @rangesAtCheck env explicitSecondaryRange storeFiveFive in
      invalidDelta (GetDelta (get h1 yra)) = true
      /\ checkRanges explicitSecondaryRange h1 xr yr yra = None)
  /\ result (@Render env explicitSecondaryRange provider storeFiveFive) = None.
Proof. vm_compute; repeat split; reflexivity. Qed.

(** A hidden series on the secondary axis is enough for the secondary range
    to be validated, and the render fails on it. *)
Example hidden_secondary_series_is_validated :
  existsb (fun s => shown s && YAxisType_eqb (sYAxis s) YAxisSecondary)
          (cSeries hiddenSecondary) = false
  /\ explicitSecondary hiddenSecondary = false
  /\ result (@Render env hiddenSecondary provider []) =
     Some (ErrNew "Invalid (infinite or NaN) y-secondary-range delta").
Proof. vm_compute; repeat split; reflexivity. Qed.

(** The store as [checkRanges] sees it for the chart [plain]. *)
Lemma checkRanges_secondary_witness :
  let h := [mkRange (f 0) (f 1) 1014; mkRange (f 0) (f 100) 390;
            mkRange (f 0) (f 100) 390] in
  checkRanges plain h 0%nat 1%nat 2%nat = None
  /\ checkRanges explicitXRange [mkRange (f 0) (f 1) 0; mkRange (f 0) (f 1) 0;
                                 mkRange (f 5) (f 5) 0] 0%nat 1%nat 2%nat = None.
Proof.
  pose proof (checkRanges_secondary plain
                [mkRange (f 0) (f 1) 1014; mkRange (f 0) (f 100) 390;
                 mkRange (f 0) (f 100) 390] 0%nat 1%nat 2%nat
                ltac:(vm_compute; reflexivity) ltac:(vm_compute; reflexivity))
    as [W1 _].
  pose proof (checkRanges_secondary explicitXRange
                [mkRange (f 0) (f 1) 0; mkRange (f 0) (f 1) 0;
                 mkRange (f 5) (f 5) 0] 0%nat 1%nat 2%nat
                ltac:(vm_compute; reflexivity) ltac:(vm_compute; reflexivity))
    as [_ W2].
  specialize (W1 ltac:(vm_compute; reflexivity)).
  specialize (W2 ltac:(vm_compute; reflexivity)).
  vm_compute in W1, W2 |- *.
  split; [exact W1|exact W2].
Defined.

(** Labels a thousand pixels high under the X axis of a chart four
    hundred high: the canvas box ends with its bottom above its top, and the
    render fills it and returns no error. *)
Lemma collapsed_box_no_error :
  let o := @Render tallEnv xAxisOnly provider [] in
  let canvasBox := mkBox 5 5 1019 (-605) in
  result o = None
  /\ In (EvDrawBox canvasBox (@getCanvasStyle tallEnv xAxisOnly)) (events o)
  /\ BoxHeight canvasBox <= 0.
Proof.
  cbv zeta; split; [reflexivity|split].
  - vm_compute; do 3 right; left; reflexivity.
  - vm_compute; discriminate.
Qed.

Lemma collapsed_box_witness :
  result (@Render tallEnv xAxisOnly provider []) = None
  /\ In (EvDrawBox (mkBox 5 5 1019 (-605)) (@getCanvasStyle tallEnv xAxisOnly))
        (events (@Render tallEnv xAxisOnly provider [])).
Proof.
  pose proof (@Render_draws_into_collapsed_box tallEnv xAxisOnly provider []
                renderer (forceSecondaryAxisType xAxisOnly) 0%nat 1%nat 2%nat
                (snd (@rangesAtCheck tallEnv (forceSecondaryAxisType xAxisOnly)
                        []))
                None None None
                ltac:(discriminate)
                ltac:(vm_compute; reflexivity) ltac:(vm_compute; reflexivity)
                ltac:(vm_compute; reflexivity) ltac:(vm_compute; reflexivity)
                ltac:(vm_compute; reflexivity)
                ltac:(right; vm_compute; discriminate)) as W.
  vm_compute in W |- *. exact W.
Defined.

(** The data 0.7 and 1.5 are rounded at the granularity 0.01: 0.7 / 0.01 is
    70 and 70 * 0.01 is the float64 next above 0.7, so that the rounded
    minimum lies inside the data, and the chart is drawn all the same.  A Y
    value that is NaN makes the folded minimum NaN, and no bound is below or
    equal to that.  And an unset range object that the X axis shares with the
    Y axis is resolved for X first, to [0, 1], and then taken as it is for
    Y, whose data reach 100. *)
Lemma auto_range_does_not_enclose :
  (Forall seriesNumeric (cSeries fractional)
   /\ existsb (contributes YAxisPrimary) (cSeries fractional) = true
   /\ yTicks (cYAxis fractional) = []
   /\ yRange (cYAxis fractional) = None
   /\ result (@Render env fractional provider []) = None
   /\ let '(xr, yr, yra, h') := @getRanges env fractional [] in
      ~ le (RMin (get h' yr)) (miny (seriesExtents fractional)))
  /\ (existsb (contributes YAxisPrimary) (cSeries nanPoint) = true
      /\ yTicks (cYAxis nanPoint) = []
      /\ yRange (cYAxis nanPoint) = None
      /\ let '(xr, yr, yra, h') := @getRanges env nanPoint [] in
         ~ le (RMin (get h' yr)) (miny (seriesExtents nanPoint)))
  /\ (Forall seriesNumeric (cSeries sharedRange)
      /\ existsb (contributes YAxisPrimary) (cSeries sharedRange) = true
      /\ yTicks (cYAxis sharedRange) = []
      /\ rangeUnset (yRange (cYAxis sharedRange)) storeUnset
      /\ result (@Render env sharedRange provider storeUnset) = None
      /\ let '(xr, yr, yra, h') := @getRanges env sharedRange storeUnset in
         ~ le (maxy (seriesExtents sharedRange)) (RMax (get h' yr))).
Proof.
  split; [|split].
  - split.
    { repeat (apply Forall_cons || apply Forall_nil);
        vm_compute; repeat constructor. }
    repeat split; try (vm_compute; reflexivity).
    vm_compute; intros E; discriminate E.
  - repeat split; vm_compute; intros E; discriminate E.
  - split.
    { repeat (apply Forall_cons || apply Forall_nil);
        vm_compute; repeat constructor. }
    repeat split; try (vm_compute; reflexivity).
    vm_compute; intros E; discriminate E.
Qed.

Lemma numeric_plain : Forall seriesNumeric (cSeries plain).
Proof.
  repeat (apply Forall_cons || apply Forall_nil);
    vm_compute; repeat constructor.
Qed.

(** The line from (0, 0) to (1, 100): the Y range is [0, 100] and encloses
    the data, the X range is [0, 1]. *)
Lemma auto_ranges_witness :
  let '(xr, yr, yra, h') := @getRanges env plain [] in
  let e := seriesExtents plain in
  (RMin (get h' yr) = f 0 /\ RMax (get h' yr) = f 100
   /\ le (RMin (get h' yr)) (miny e) /\ le (miny e) (maxy e)
   /\ le (maxy e) (RMax (get h' yr)))
  /\ (RMin (get h' yra) = f 0 /\ RMax (get h' yra) = f 100
      /\ le (minya e) (maxya e))
  /\ (RMin (get h' xr) = minx e /\ RMax (get h' xr) = maxx e).
Proof.
  pose proof (@getRanges_auto_ranges env plain []
                (separate_without_ranges plain [] eq_refl eq_refl eq_refl)) as W.
  vm_compute in W |- *.
  destruct W as [Wy [Wya Wx]].
  destruct (Wy eq_refl I eq_refl) as [Wy1 [Wy2 Wy3]].
  destruct (Wya eq_refl I eq_refl) as [Wya1 [Wya2 Wya3]].
  pose proof (Wy3 numeric_plain) as Oy.
  pose proof (Wya3 numeric_plain) as Oya.
  vm_compute in Oy, Oya.
  split; [repeat split; assumption || reflexivity|].
  split; [repeat split; assumption|exact (Wx eq_refl I)].
Defined.

(** A series without points leaves the X range at its sentinels, whose
    difference is infinite. *)
Lemma invalid_ranges_witness :
  result (@Render env noPoints provider []) =
  Some (ErrNew "Invalid (infinite or NaN) x-range delta")
  /\ events (@Render env noPoints provider []) =
     [EvProvider 1024 400; EvSetDPI (f 92);
      EvDrawBox (mkBox 0 0 1024 400) (@getBackgroundStyle env noPoints);
      EvSave].
Proof.
  pose proof (@Render_invalid_ranges_dump_background env noPoints provider []
                renderer (forceSecondaryAxisType noPoints) 0%nat 1%nat 2%nat
                (snd (@rangesAtCheck env (forceSecondaryAxisType noPoints) []))
                (ErrNew "Invalid (infinite or NaN) x-range delta")
                ltac:(discriminate)
                ltac:(vm_compute; reflexivity) ltac:(vm_compute; reflexivity)
                ltac:(vm_compute; reflexivity) ltac:(vm_compute; reflexivity))
    as W.
  vm_compute in W |- *. exact W.
Defined.

(** A chart without series. *)
Lemma no_series_witness :
  result (@Render env empty provider []) =
  Some (ErrNew "Please provide at least one series")
  /\ events (@Render env empty provider []) = []
  /\ store (@Render env empty provider []) = [].
Proof. exact (@Render_no_series env empty provider [] eq_refl). Defined.



(** The calls of a render of [plain]. *)
Lemma draw_order_witness :
  result (@Render env plain provider []) = None
  /\ events (@Render env plain provider []) =
     @drawOrder env (forceSecondaryAxisType plain) renderer 0%nat 1%nat 2%nat
       (mkBox 5 5 989 375)
       ([mkTick (f 0) EmptyString; mkTick (f 1) EmptyString],
        [mkTick (f 0) EmptyString; mkTick (f 100) EmptyString], []).
Proof.
  split; [vm_compute; reflexivity|].
  destruct (@Render_success_draw_order env plain provider []
              ltac:(vm_compute; reflexivity))
    as (r & c' & xr & yr & yra & h1 & xf & yf & yfa & Hrp & Hp & Hr & Hf & Hev).
  vm_compute in Hrp; injection Hrp as <-.
  vm_compute in Hp; injection Hp as <-.
  vm_compute in Hr; injection Hr as <- <- <- <-.
  vm_compute in Hf; injection Hf as <- <- <-.
  vm_compute in Hev |- *. exact Hev.
Defined.



(** The formatter of the later, secondary series wins over that of the
    earlier, primary one; a formatter on the X axis wins over both. *)
Lemma formatters_witness :
  fst (fst (getValueFormatters formatted)) = Some fmtB
  /\ fst (fst (getValueFormatters formattedX)) = Some fmtC.
Proof.
  split.
  - exact (proj1 (getValueFormatters_x formatted) eq_refl).
  - exact (proj2 (getValueFormatters_x formattedX) fmtC eq_refl).
Defined.

End Worked.

(** * Further properties of [chart.go] *)

(** ** The errors of Render and the save *)

Section RenderErrors.

Context `{Externals}.

(** X1: when the provider fails, [Render] returns the provider's error as it
    is; nothing is drawn or saved, and no range object is written. *)
Theorem Render_provider_failure (c : Chart) (rp : RendererProvider)
    (h : Store) err :
  cSeries c <> [] ->
  rp (GetWidth c) (GetHeight c) = inl err ->
  result (Render c rp h) = Some err
  /\ events (Render c rp h) = [EvProvider (GetWidth c) (GetHeight c)]
  /\ store (Render c rp h) = h.
Proof.
  intros Hs Hrp; rewrite (Render_provider_error c rp h err Hs Hrp).
  repeat split.
Qed.

(** X2: when the chart has no font and the default font cannot be loaded,
    [Render] returns the loader's error: the surface was acquired, but nothing
    is drawn or saved and no range object is written. *)
Theorem Render_font_failure (c : Chart) (rp : RendererProvider) (h : Store)
    r err :
  cSeries c <> [] ->
  rp (GetWidth c) (GetHeight c) = inr r ->
  Font c = None ->
  GetDefaultFont = inl err ->
  result (Render c rp h) = Some err
  /\ events (Render c rp h) = [EvProvider (GetWidth c) (GetHeight c)]
  /\ store (Render c rp h) = h.
Proof.
  intros Hs Hrp Hfont Hload.
  assert (Hp : prepare c = inl err).
  { unfold prepare; simpl; rewrite Hfont, Hload; reflexivity. }
  rewrite (Render_font_error c rp h r err Hs Hrp Hp); repeat split.
Qed.

Lemma checkRanges_errors (c : Chart) (h : Store) (xr yr yra : loc) err :
  checkRanges c h xr yr yra = Some err -> In err rangeErrors.
Proof.
  unfold checkRanges, rangeErrors.
  destruct (invalidDelta (GetDelta (get h xr)));
    [intros E; inversion E; simpl; auto|].
  destruct (invalidDelta (GetDelta (get h yr)));
    [intros E; inversion E; simpl; auto|].
  destruct (hasSecondarySeries c); [|discriminate].
  destruct (invalidDelta (GetDelta (get h yra)));
    [intros E; inversion E; simpl; auto|discriminate].
Qed.

(** X3: the errors of [Render] are: the configuration error for an empty
    series list, the provider's error, the font loader's error, one of the
    three range errors, and whatever saving the surface returns; there is no
    other. *)
Theorem Render_result_cases (c : Chart) (rp : RendererProvider) (h : Store) :
  (cSeries c = []
   /\ result (Render c rp h) =
      Some (ErrNew "Please provide at least one series"))
  \/ (exists err,
        rp (GetWidth c) (GetHeight c) = inl err
        /\ result (Render c rp h) = Some err)
  \/ (exists err,
        Font c = None /\ GetDefaultFont = inl err
        /\ result (Render c rp h) = Some err)
  \/ (exists err,
        In err rangeErrors /\ result (Render c rp h) = Some err)
  \/ (exists r,
        rp (GetWidth c) (GetHeight c) = inr r
        /\ result (Render c rp h) = SaveResult r).
Proof.
  destruct (cSeries c) as [|s0 l0] eqn:Hser.
  { left; split; [reflexivity|].
    rewrite (Render_empty_series c rp h Hser); reflexivity. }
  assert (Hs : cSeries c <> []) by (rewrite Hser; discriminate).
  right.
  destruct (rp (GetWidth c) (GetHeight c)) as [err|r] eqn:Hrp.
  { left; exists err; split; [reflexivity|].
    rewrite (Render_provider_error c rp h err Hs Hrp); reflexivity. }
  right.
  destruct (prepare c) as [err|c'] eqn:Hp.
  { left; exists err.
    rewrite (Render_font_error c rp h r err Hs Hrp Hp).
    revert Hp; unfold prepare; simpl.
    destruct (Font c); [discriminate|].
    destruct GetDefaultFont; [|discriminate].
    intros E; inversion E; auto. }
  right.
  destruct (rangesAtCheck c' h) as [[[xr yr] yra] h1] eqn:Hr.
  destruct (checkRanges c' h1 xr yr yra) as [err|] eqn:Hc.
  { left; exists err; split; [exact (checkRanges_errors _ _ _ _ _ _ Hc)|].
    rewrite (Render_range_error c rp h r c' xr yr yra h1 err Hs Hrp Hp Hr Hc).
    reflexivity. }
  right; exists r; split; [reflexivity|].
  destruct (getValueFormatters c') as [[xf yf] yfa] eqn:Hf.
  rewrite (Render_drawn c rp h r c' xr yr yra h1 xf yf yfa Hs Hrp Hp Hr Hc Hf).
  reflexivity.
Qed.

Lemma drawSeriesFrom_no_save (c : Chart) (b : Box) (xr yr yra : loc)
    (l : list Series) (i : nat) :
  Forall (fun e => isSave e = false) (drawSeriesFrom c b xr yr yra i l).
Proof.
  rewrite drawSeriesFrom_map; apply Forall_forall; intros e He.
  apply in_map_iff in He; destruct He as [p [<- _]]; reflexivity.
Qed.

Lemma drawAxes_no_save (c : Chart) (b : Box) (xr yr yra : loc) xt yt yta :
  Forall (fun e => isSave e = false) (drawAxes c b xr yr yra xt yt yta).
Proof.
  unfold drawAxes.
  destruct (Show (xStyle (cXAxis c))), (Show (yStyle (cYAxis c))),
    (Show (yStyle (cYAxisSecondary c))); simpl; repeat constructor.
Qed.

Lemma drawTitle_no_save (c : Chart) (r : Renderer) :
  Forall (fun e => isSave e = false) (drawTitle c r).
Proof.
  unfold drawTitle.
  destruct ((0 <? String.length (Title c))%nat && Show (TitleStyle c));
    repeat constructor.
Qed.

Lemma drawElements_no_save (c : Chart) (b : Box) :
  Forall (fun e => isSave e = false) (drawElements c b).
Proof.
  unfold drawElements; apply Forall_forall; intros e He.
  apply in_map_iff in He; destruct He as [a [<- _]]; reflexivity.
Qed.

(** X4: the surface is saved exactly when [Render] gets to draw the
    background, that is when there is a series, the provider succeeds and a
    font is at hand; the save then comes once, as the last call, on the error
    path of the ranges as on the drawing path.  Otherwise nothing is saved. *)
Theorem Render_saves_once_at_the_end (c : Chart) (rp : RendererProvider)
    (h : Store) :
  (forall r c',
     cSeries c <> [] ->
     rp (GetWidth c) (GetHeight c) = inr r ->
     prepare c = inr c' ->
     exists calls,
       events (Render c rp h) = calls ++ [EvSave]
       /\ Forall (fun e => isSave e = false) calls)
  /\ ((cSeries c = []
       \/ (exists err, rp (GetWidth c) (GetHeight c) = inl err)
       \/ (exists err, prepare c = inl err)) ->
      Forall (fun e => isSave e = false) (events (Render c rp h))).
Proof.
  split.
  - intros r c' Hs Hrp Hp.
    destruct (rangesAtCheck c' h) as [[[xr yr] yra] h1] eqn:Hr.
    destruct (checkRanges c' h1 xr yr yra) as [err|] eqn:Hc.
    + rewrite (Render_range_error c rp h r c' xr yr yra h1 err Hs Hrp Hp Hr Hc).
      simpl events.
      exists [EvProvider (GetWidth c) (GetHeight c);
              EvSetDPI (GetDPI c' [DefaultDPI]);
              EvDrawBox (mkBox 0 0 (GetWidth c') (GetHeight c'))
                        (getBackgroundStyle c')].
      split; [reflexivity|repeat constructor].
    + destruct (getValueFormatters c') as [[xf yf] yfa] eqn:Hf.
      rewrite (Render_drawn c rp h r c' xr yr yra h1 xf yf yfa
                 Hs Hrp Hp Hr Hc Hf).
      cbv zeta; simpl events.
      set (b := fst (layoutResult c' r xr yr yra xf yf yfa
                       (getDefaultCanvasBox c', h1))).
      set (ticks := layoutTicks c' r xr yr yra xf yf yfa
                      (getDefaultCanvasBox c', h1)).
      exists (([EvProvider (GetWidth c) (GetHeight c);
                EvSetDPI (GetDPI c' [DefaultDPI])]
               ++ drawBackground c' ++ drawCanvas c' b)
              ++ drawAxes c' b xr yr yra (fst (fst ticks)) (snd (fst ticks))
                          (snd ticks)
              ++ drawSeriesFrom c' b xr yr yra 0 (cSeries c')
              ++ drawTitle c' r
              ++ drawElements c' b).
      split.
      * simpl; repeat rewrite <- app_assoc; reflexivity.
      * apply Forall_app; split; [simpl; repeat constructor|].
        apply Forall_app; split; [apply drawAxes_no_save|].
        apply Forall_app; split; [apply drawSeriesFrom_no_save|].
        apply Forall_app; split;
          [apply drawTitle_no_save|apply drawElements_no_save].
  - intros [Hser|[[err Hrp]|[err Hp]]].
    + rewrite (Render_empty_series c rp h Hser); constructor.
    + destruct (cSeries c) as [|s0 l0] eqn:Hser.
      * rewrite (Render_empty_series c rp h Hser); constructor.
      * assert (Hs : cSeries c <> []) by (rewrite Hser; discriminate).
        rewrite (Render_provider_error c rp h err Hs Hrp); repeat constructor.
    + destruct (cSeries c) as [|s0 l0] eqn:Hser.
      * rewrite (Render_empty_series c rp h Hser); constructor.
      * assert (Hs : cSeries c <> []) by (rewrite Hser; discriminate).
        destruct (rp (GetWidth c) (GetHeight c)) as [e|r] eqn:Hrp.
        -- rewrite (Render_provider_error c rp h e Hs Hrp); repeat constructor.
        -- rewrite (Render_font_error c rp h r err Hs Hrp Hp);
             repeat constructor.
Qed.

End RenderErrors.

(** ** More on getRanges *)

Section MoreRanges.

Context `{Externals}.

Lemma length_resolveYAlt c e l h : length (resolveYAlt c e l h) = length h.
Proof.
  unfold resolveYAlt, roundRange.
  destruct (0 <? length (yTicks (cYAxisSecondary c)))%nat;
    [|destruct (seriesMappedToSecondaryAxis e && RangeIsZero (get h l))];
    rewrite ?length_SetMin_SetMax; reflexivity.
Qed.

Lemma length_rangeOrNew (r : option loc) (h : Store) :
  length (snd (rangeOrNew r h)) =
  (length h + match r with Some _ => 0 | None => 1 end)%nat.
Proof.
  destruct r; simpl; [lia|]. rewrite length_app; simpl; lia.
Qed.

(** The object of an axis that has one is the one resolved, and the
    allocation leaves it as it is. *)
Lemma allocRanges_explicit (c : Chart) (h : Store) :
  let '(xr, yr, yra, h3) := allocRanges c h in
  (forall l, xRange (cXAxis c) = Some l -> xr = l)
  /\ (forall l, yRange (cYAxis c) = Some l -> yr = l)
  /\ (forall l, yRange (cYAxisSecondary c) = Some l -> yra = l)
  /\ (yRange (cYAxisSecondary c) = None -> get h3 yra = zeroRange).
Proof.
  unfold allocRanges; cbn [fst snd].
  repeat split.
  - intros l E; rewrite E; reflexivity.
  - intros l E; rewrite E; reflexivity.
  - intros l E; rewrite E; reflexivity.
  - intros E; rewrite E; simpl; apply get_fresh.
Qed.

(** X5: with separate range objects, the range object of an axis that has
    no ticks and whose range is already resolved (not zero) is used as it
    is: [getRanges] does not write it. *)
Theorem getRanges_explicit_range_verbatim (c : Chart) (h : Store) :
  rangesSeparate c h ->
  let '(xr, yr, yra, h') := getRanges c h in
  (forall l,
     xRange (cXAxis c) = Some l -> xTicks (cXAxis c) = [] ->
     RangeIsZero (get h l) = false ->
     xr = l /\ get h' l = get h l)
  /\ (forall l,
        yRange (cYAxis c) = Some l -> yTicks (cYAxis c) = [] ->
        RangeIsZero (get h l) = false ->
        yr = l /\ get h' l = get h l)
  /\ (forall l,
        yRange (cYAxisSecondary c) = Some l ->
        yTicks (cYAxisSecondary c) = [] ->
        RangeIsZero (get h l) = false ->
        yra = l /\ get h' l = get h l).
Proof.
  intros Hsep; rewrite getRanges_eq.
  pose proof (allocRanges_separate c h Hsep) as Ha.
  pose proof (allocRanges_explicit c h) as He.
  pose proof (fun l => allocRanges_old c h l) as Hold.
  destruct Hsep as [Vx [Vy [Vya _]]].
  destruct (allocRanges c h) as [[[xr yr] yra] h3]; cbn [snd] in Hold.
  destruct Ha as [_ [[Nxy [Nxya Nyya]] _]].
  destruct He as [Ex [Ey [Eya _]]].
  cbv beta iota zeta; split; [|split]; intros l Hl Ht Hz.
  - rewrite (Ex l Hl) in *; split; [reflexivity|].
    rewrite resolveYAlt_other, resolveY_other by congruence.
    unfold resolveX; rewrite Ht; simpl.
    rewrite (Hold l (Vx l Hl)), Hz; apply Hold, Vx, Hl.
  - rewrite (Ey l Hl) in *; split; [reflexivity|].
    rewrite resolveYAlt_other by congruence.
    unfold resolveY; rewrite Ht; simpl.
    rewrite resolveX_other by congruence.
    rewrite (Hold l (Vy l Hl)), Hz.
    rewrite resolveX_other by congruence; apply Hold, Vy, Hl.
  - rewrite (Eya l Hl) in *; split; [reflexivity|].
    unfold resolveYAlt; rewrite Ht; simpl.
    rewrite resolveY_other, resolveX_other by congruence.
    rewrite (Hold l (Vya l Hl)), Hz, andb_false_r.
    rewrite resolveY_other, resolveX_other by congruence; apply Hold, Vya, Hl.
Qed.

(** X6: the secondary range is computed from the series only when a shown
    series on the secondary axis has a point.  Otherwise, and without ticks
    on the secondary axis, [getRanges] leaves the range object of the
    secondary axis as it is, and gives an axis without one a zero range. *)
Theorem getRanges_secondary_needs_a_point (c : Chart) (h : Store) :
  rangesSeparate c h ->
  yTicks (cYAxisSecondary c) = [] ->
  existsb (contributes YAxisSecondary) (cSeries c) = false ->
  let '(xr, yr, yra, h') := getRanges c h in
  match yRange (cYAxisSecondary c) with
  | Some l => yra = l /\ get h' l = get h l
  | None => get h' yra = zeroRange
  end.
Proof.
  intros Hsep Ht Hno; rewrite getRanges_eq.
  pose proof (allocRanges_separate c h Hsep) as Ha.
  pose proof (allocRanges_explicit c h) as He.
  pose proof (fun l => allocRanges_old c h l) as Hold.
  destruct Hsep as [_ [_ [Vya _]]].
  destruct (allocRanges c h) as [[[xr yr] yra] h3]; cbn [snd] in Hold.
  destruct Ha as [_ [[Nxy [Nxya Nyya]] _]].
  destruct He as [_ [_ [Eya Efresh]]].
  cbv beta iota zeta.
  assert (Hsame : get (resolveYAlt c (seriesExtents c) yra
                         (resolveY c (seriesExtents c) yr
                            (resolveX c (seriesExtents c) xr h3))) yra
                  = get h3 yra).
  { unfold resolveYAlt; rewrite Ht, seriesMapped_iff, Hno; simpl.
    rewrite resolveY_other, resolveX_other by congruence; reflexivity. }
  destruct (yRange (cYAxisSecondary c)) as [l|] eqn:Hr.
  - rewrite (Eya l eq_refl) in *; split; [reflexivity|].
    rewrite Hsame; apply Hold, Vya; reflexivity.
  - rewrite Hsame; apply Efresh; reflexivity.
Qed.

(** X7: [getRanges] resolves, for an axis that has a range object, that
    very object, and for an axis that has none a new object, which was not in
    the store and is not the new object of another axis; the store grows by
    one object for each such axis and by nothing else. *)
Theorem getRanges_allocation (c : Chart) (h : Store) :
  let '(xr, yr, yra, h') := getRanges c h in
  length h' = (length h + missingRanges c)%nat
  /\ ((forall l, xRange (cXAxis c) = Some l -> xr = l)
      /\ (forall l, yRange (cYAxis c) = Some l -> yr = l)
      /\ (forall l, yRange (cYAxisSecondary c) = Some l -> yra = l))
  /\ ((xRange (cXAxis c) = None -> (length h <= xr < length h')%nat)
      /\ (yRange (cYAxis c) = None -> (length h <= yr < length h')%nat)
      /\ (yRange (cYAxisSecondary c) = None ->
          (length h <= yra < length h')%nat))
  /\ ((xRange (cXAxis c) = None -> yRange (cYAxis c) = None -> xr <> yr)
      /\ (xRange (cXAxis c) = None -> yRange (cYAxisSecondary c) = None ->
          xr <> yra)
      /\ (yRange (cYAxis c) = None -> yRange (cYAxisSecondary c) = None ->
          yr <> yra)).
Proof.
  rewrite getRanges_eq.
  pose proof (allocRanges_explicit c h) as He.
  assert (Ha :
    let '(xr, yr, yra, h3) := allocRanges c h in
    length h3 = (length h + missingRanges c)%nat
    /\ ((xRange (cXAxis c) = None -> (length h <= xr < length h3)%nat)
        /\ (yRange (cYAxis c) = None -> (length h <= yr < length h3)%nat)
        /\ (yRange (cYAxisSecondary c) = None ->
            (length h <= yra < length h3)%nat))
    /\ ((xRange (cXAxis c) = None -> yRange (cYAxis c) = None -> xr <> yr)
        /\ (xRange (cXAxis c) = None -> yRange (cYAxisSecondary c) = None ->
            xr <> yra)
        /\ (yRange (cYAxis c) = None -> yRange (cYAxisSecondary c) = None ->
            yr <> yra))).
  { unfold allocRanges, rangeOrNew, alloc, missingRanges.
    destruct (xRange (cXAxis c)) as [lx|];
      destruct (yRange (cYAxis c)) as [ly|];
      destruct (yRange (cYAxisSecondary c)) as [lya|];
      cbn [fst snd]; rewrite ?length_app; cbn [length];
      repeat split; intros; try discriminate; lia. }
  destruct (allocRanges c h) as [[[xr yr] yra] h3].
  destruct Ha as [Hlen [Hnew Hdis]], He as [Ex [Ey [Eya _]]].
  cbv beta iota zeta.
  rewrite length_resolveYAlt, length_resolveY, length_resolveX.
  repeat split; try tauto; auto.
Qed.

End MoreRanges.

(** ** Charts without points *)

Section NoPoints.

Context `{Externals}.

Lemma nonempty_false {A} (l : list A) : (0 <? length l)%nat = false -> l = [].
Proof. destruct l; [reflexivity|discriminate]. Qed.

Lemma scanSeries_no_point (s : Series) (e : Extents) :
  hasPoint s = false -> scanSeries e s = e.
Proof.
  unfold hasPoint, scanSeries, shown.
  destruct (StyleIsZero (sStyle s) || Show (sStyle s)); simpl;
    [|reflexivity].
  destruct (sBounded s) as [points|].
  - intros Hn; rewrite (nonempty_false _ Hn); reflexivity.
  - destruct (sValues s) as [points|]; [|reflexivity].
    intros Hn; rewrite (nonempty_false _ Hn); reflexivity.
Qed.

(** Without a point in a shown series the running extremes stay at their
    sentinels. *)
Lemma seriesExtents_no_point (c : Chart) :
  existsb hasPoint (cSeries c) = false -> seriesExtents c = initExtents.
Proof.
  unfold seriesExtents; generalize initExtents.
  induction (cSeries c) as [|s l IH]; intros e Hn; simpl in *; [reflexivity|].
  apply orb_false_iff in Hn; destruct Hn as [Hs Hl].
  rewrite scanSeries_no_point by exact Hs; apply IH, Hl.
Qed.

(** The X range that is computed from the series. *)
Lemma getRanges_X_from_series (c : Chart) (h : Store) :
  rangesSeparate c h ->
  xTicks (cXAxis c) = [] ->
  rangeUnset (xRange (cXAxis c)) h ->
  let '(xr, yr, yra, h') := getRanges c h in
  RMin (get h' xr) = minx (seriesExtents c)
  /\ RMax (get h' xr) = maxx (seriesExtents c).
Proof.
  intros Hsep Ht Hu; rewrite getRanges_eq.
  pose proof (allocRanges_separate c h Hsep) as Ha.
  destruct (allocRanges c h) as [[[xr yr] yra] h3].
  destruct Ha as [[Lx _] [[Nxy [Nxya _]] [Zx _]]].
  cbv beta iota zeta.
  rewrite resolveYAlt_other, resolveY_other by congruence.
  unfold resolveX; rewrite Ht; simpl.
  rewrite (Zx Hu), get_SetMin_SetMax by exact Lx; simpl; auto.
Qed.

Lemma prepare_rangesSeparate (c c' : Chart) (h : Store) :
  prepare c = inr c' -> rangesSeparate c h -> rangesSeparate c' h.
Proof.
  intros Hp; destruct (prepare_fields c c' Hp)
    as (_ & _ & _ & _ & _ & _ & _ & Hx & Hy & _ & _ & _ & _ & _ & Hr & _).
  unfold rangesSeparate; rewrite Hx, Hy, Hr; auto.
Qed.

(** X8: a chart whose axes have separate range objects and none of whose
    shown series has a point, with no ticks on the X axis and no resolved X
    range, is rejected with the X range error: the X range stays at the
    sentinels [MaxFloat64, -MaxFloat64], whose difference overflows to an
    infinity. *)
Theorem Render_without_points (c : Chart) (rp : RendererProvider) (h : Store)
    r c' :
  cSeries c <> [] ->
  rp (GetWidth c) (GetHeight c) = inr r ->
  prepare c = inr c' ->
  rangesSeparate c h ->
  xTicks (cXAxis c) = [] ->
  rangeUnset (xRange (cXAxis c)) h ->
  existsb hasPoint (cSeries c) = false ->
  result (Render c rp h) =
  Some (ErrNew "Invalid (infinite or NaN) x-range delta").
Proof.
  intros Hs Hrp Hp Hsep Ht Hu Hno.
  destruct (prepare_fields c c' Hp)
    as (_ & _ & _ & _ & _ & _ & _ & Hx & _ & _ & Hser & _).
  pose proof (prepare_rangesSeparate c c' h Hp Hsep) as Hsep'.
  rewrite <- Hx in Ht, Hu; rewrite <- Hser in Hno.
  pose proof (getRanges_X_from_series c' h Hsep' Ht Hu) as Hxr.
  rewrite (seriesExtents_no_point c' Hno) in Hxr.
  destruct (getRanges c' h) as [[[xr yr] yra] h0] eqn:Hg.
  destruct Hxr as [Hmin Hmax].
  set (h1 := setRangeDomains (getDefaultCanvasBox c') xr yr yra h0).
  assert (Hr : rangesAtCheck c' h = (xr, yr, yra, h1)).
  { unfold rangesAtCheck; rewrite Hg; reflexivity. }
  assert (Hd : GetDelta (get h1 xr) = Inf true).
  { unfold GetDelta, h1.
    destruct (bounds_setRangeDomains (getDefaultCanvasBox c') xr yr yra h0 xr)
      as [E1 E2].
    rewrite E1, E2, Hmin, Hmax; vm_compute; reflexivity. }
  assert (Hc : checkRanges c' h1 xr yr yra =
               Some (ErrNew "Invalid (infinite or NaN) x-range delta")).
  { unfold checkRanges; rewrite Hd; reflexivity. }
  rewrite (Render_range_error c rp h r c' xr yr yra h1 _ Hs Hrp Hp Hr Hc).
  reflexivity.
Qed.

End NoPoints.

(** ** Formatters, series calls, title, validation *)

Section MoreDrawing.

Context `{Externals}.

Lemma pickFormatters_y (acc : Formatters) (s : Series) :
  snd (fst (pickFormatters acc s)) =
  match sFormatters s with
  | Some (_, sy) =>
      if YAxisType_eqb (sYAxis s) YAxisPrimary then sy else snd (fst acc)
  | None => snd (fst acc)
  end
  /\ snd (pickFormatters acc s) =
     match sFormatters s with
     | Some (_, sy) =>
         if YAxisType_eqb (sYAxis s) YAxisSecondary then sy else snd acc
     | None => snd acc
     end.
Proof.
  destruct acc as [[x y] ya]; unfold pickFormatters.
  destruct (sFormatters s) as [[sx sy]|]; [|split; reflexivity].
  destruct (sYAxis s); split; reflexivity.
Qed.

Lemma fold_pickFormatters_y (l : list Series) (acc : Formatters) :
  snd (fst (fold_left pickFormatters l acc)) =
  match find (fun s => providesFormatters s
                       && YAxisType_eqb (sYAxis s) YAxisPrimary) (rev l) with
  | Some s =>
      match sFormatters s with
      | Some (_, sy) => sy
      | None => None
      end
  | None => snd (fst acc)
  end
  /\ snd (fold_left pickFormatters l acc) =
     match find (fun s => providesFormatters s
                          && YAxisType_eqb (sYAxis s) YAxisSecondary)
                (rev l) with
     | Some s =>
         match sFormatters s with
         | Some (_, sy) => sy
         | None => None
         end
     | None => snd acc
     end.
Proof.
  induction l as [|s l [IHy IHya]] using rev_ind; [split; reflexivity|].
  rewrite fold_left_app, rev_unit; simpl.
  destruct (pickFormatters_y (fold_left pickFormatters l acc) s) as [-> ->].
  unfold providesFormatters.
  destruct (sFormatters s) as [[sx sy]|] eqn:E; simpl; [|auto].
  destruct (sYAxis s); simpl; rewrite ?E; auto.
Qed.

(** X9: the Y formatter that [getValueFormatters] returns is the Y formatter
    of the last series on the primary axis that provides formatters, and the
    secondary one that of the last such series on the secondary axis: unlike
    the X formatter, neither is overwritten by a series of the other axis.  A
    formatter set on the axis is returned instead. *)
Theorem getValueFormatters_y (c : Chart) :
  (yValueFormatter (cYAxis c) = None ->
   snd (fst (getValueFormatters c)) =
   lastSeriesYFormatter YAxisPrimary (cSeries c))
  /\ (forall fmt, yValueFormatter (cYAxis c) = Some fmt ->
      snd (fst (getValueFormatters c)) = Some fmt)
  /\ (yValueFormatter (cYAxisSecondary c) = None ->
      snd (getValueFormatters c) =
      lastSeriesYFormatter YAxisSecondary (cSeries c))
  /\ (forall fmt, yValueFormatter (cYAxisSecondary c) = Some fmt ->
      snd (getValueFormatters c) = Some fmt).
Proof.
  unfold getValueFormatters, lastSeriesYFormatter.
  destruct (fold_pickFormatters_y (cSeries c) (None, None, None)) as [Hy Hya].
  destruct (fold_left pickFormatters (cSeries c) (None, None, None))
    as [[x y] ya]; simpl in *.
  repeat split.
  - intros Hn; rewrite Hn; simpl; rewrite Hy.
    destruct (find _ (rev (cSeries c))); reflexivity.
  - intros fmt Hs; rewrite Hs; reflexivity.
  - intros Hn; rewrite Hn; simpl; rewrite Hya.
    destruct (find _ (rev (cSeries c))); reflexivity.
  - intros fmt Hs; rewrite Hs; reflexivity.
Qed.

Lemma In_combine_seq {A} (l : list A) (k i : nat) (a : A) :
  In (i, a) (combine (seq k (length l)) l)
  <-> (k <= i)%nat /\ nth_error l (i - k) = Some a.
Proof.
  revert k; induction l as [|b l IH]; intros k; simpl.
  - split; [intros []|intros [_ E]].
    destruct (i - k)%nat; discriminate E.
  - rewrite IH; split.
    + intros [E|[Hle Hn]].
      * inversion E; subst; rewrite Nat.sub_diag; auto.
      * split; [lia|].
        replace (i - k)%nat with (S (i - S k)) by lia; exact Hn.
    + intros [Hle Hn].
      destruct (i - k)%nat as [|m] eqn:Em.
      * left; inversion Hn; f_equal; lia.
      * right; split; [lia|].
        replace (i - S k)%nat with m by lia; exact Hn.
Qed.

(** X10: the series loop of [Render] makes one call for each shown series and
    none for a hidden one; the call carries the position of the series in
    the whole list, hidden series counted, and with it the default style of
    that position, and the Y range of the axis of the series. *)
Theorem drawSeries_calls (c : Chart) (b : Box) (xr yr yra : loc) (e : Event) :
  In e (drawSeriesFrom c b xr yr yra 0 (cSeries c))
  <-> exists i s,
        nth_error (cSeries c) i = Some s
        /\ shown s = true
        /\ e = EvSeriesRender i b xr (rangeOfAxis (sYAxis s) yr yra)
                 (styleDefaultsSeries c i).
Proof.
  rewrite drawSeriesFrom_map, in_map_iff; split.
  - intros [[i s] [<- Hin]]; apply filter_In in Hin.
    destruct Hin as [Hin Hs]; apply In_combine_seq in Hin.
    destruct Hin as [_ Hn]; rewrite Nat.sub_0_r in Hn.
    exists i, s; simpl in *; auto.
  - intros [i [s [Hn [Hs ->]]]]; exists (i, s); split; [reflexivity|].
    apply filter_In; split; [|exact Hs].
    apply In_combine_seq; rewrite Nat.sub_0_r; split; [lia|exact Hn].
Qed.

Lemma wrap_small (z : Z) : - 2 ^ 63 <= z < 2 ^ 63 -> wrap z = z.
Proof.
  intros Hz; unfold wrap.
  rewrite Z.mod_small by lia; lia.
Qed.

(** X11: a visible, non-empty title is drawn centred: with a chart width and
    a text width that are not negative and below 2^62, the margins left and
    right of the text differ by one pixel at most. *)
Theorem drawTitle_centred (c : Chart) (r : Renderer) :
  (0 < String.length (Title c))%nat ->
  Show (TitleStyle c) = true ->
  let textWidth :=
    BoxWidth
      (MeasureText r (Style_GetFont (TitleStyle c) (GetFont c))
         (Style_GetFontSize (TitleStyle c) DefaultTitleFontSize) (Title c)) in
  0 <= GetWidth c < 2 ^ 62 ->
  0 <= textWidth < 2 ^ 62 ->
  exists x y,
    last (drawTitle c r) EvSave = EvText (Title c) x y
    /\ -1 <= (GetWidth c - (x + textWidth)) - x <= 1.
Proof.
  intros Hlen Hshow textWidth Hw Ht; unfold drawTitle.
  apply Nat.ltb_lt in Hlen; rewrite Hlen, Hshow; simpl.
  fold textWidth.
  eexists; eexists; split; [reflexivity|].
  rewrite !Z.shiftr_div_pow2 by lia.
  change (2 ^ 1) with 2.
  assert (Hx : - 2 ^ 63 <= GetWidth c / 2 - textWidth / 2 < 2 ^ 63).
  { pose proof (Z.div_pos (GetWidth c) 2); pose proof (Z.div_pos textWidth 2).
    pose proof (Z.div_le_upper_bound (GetWidth c) 2 (2 ^ 62)).
    pose proof (Z.div_le_upper_bound textWidth 2 (2 ^ 62)).
    lia. }
  rewrite (wrap_small _ Hx).
  pose proof (Z.div_mod (GetWidth c) 2); pose proof (Z.div_mod textWidth 2).
  pose proof (Z.mod_pos_bound (GetWidth c) 2).
  pose proof (Z.mod_pos_bound textWidth 2).
  lia.
Qed.

Lemma validateFrom_none (validate : Series -> option error) (l : list Series) :
  validateFrom validate l = None <-> Forall (fun s => validate s = None) l.
Proof.
  induction l as [|s l IH]; simpl; [split; auto|].
  destruct (validate s) eqn:E; split.
  - discriminate.
  - intros Hf; inversion Hf; congruence.
  - intros Hn; constructor; [exact E|apply IH, Hn].
  - intros Hf; inversion Hf; apply IH; assumption.
Qed.

(** X12: [validateSeries] returns nil exactly when every series validates;
    otherwise it returns the error of the first series that does not, and
    the series before that one all validate. *)
Theorem validateSeries_first_error (validate : Series -> option error)
    (c : Chart) :
  (validateSeries validate c = None
   <-> Forall (fun s => validate s = None) (cSeries c))
  /\ (forall err,
        validateSeries validate c = Some err ->
        exists before s after,
          cSeries c = before ++ s :: after
          /\ Forall (fun s' => validate s' = None) before
          /\ validate s = Some err).
Proof.
  unfold validateSeries; split; [apply validateFrom_none|].
  induction (cSeries c) as [|s l IH]; simpl; intros err Hv; [discriminate|].
  destruct (validate s) as [e|] eqn:E.
  - inversion Hv; subst; exists [], s, l; repeat split; auto.
  - destruct (IH err Hv) as [before [s' [after [El [Hb Hs]]]]].
    exists (s :: before), s', after; rewrite El; repeat split; auto.
Qed.

End MoreDrawing.

(** ** The layout and the range objects *)

Section LayoutStore.

Context `{Externals}.

Lemma length_SetDomain l d h : length (SetDomain l d h) = length h.
Proof. apply length_upd. Qed.

Lemma length_setRangeDomains' b xr yr yra h :
  length (setRangeDomains b xr yr yra h) = length h.
Proof. unfold setRangeDomains; rewrite !length_SetDomain; reflexivity. Qed.

Lemma get_SetDomain_same l d h :
  (l < length h)%nat -> Domain (get (SetDomain l d h) l) = d.
Proof.
  intros Hl; unfold SetDomain; rewrite get_upd_same by exact Hl; reflexivity.
Qed.

(** With three different objects, [setRangeDomains] leaves the width of the
    box in the X range and its height in both Y ranges. *)
Lemma setRangeDomains_domains b xr yr yra h :
  (xr < length h)%nat -> (yr < length h)%nat -> (yra < length h)%nat ->
  xr <> yr -> xr <> yra -> yr <> yra ->
  Domain (get (setRangeDomains b xr yr yra h) xr) = BoxWidth b
  /\ Domain (get (setRangeDomains b xr yr yra h) yr) = BoxHeight b
  /\ Domain (get (setRangeDomains b xr yr yra h) yra) = BoxHeight b.
Proof.
  intros Lx Ly Lya Nxy Nxya Nyya; unfold setRangeDomains; repeat split.
  - rewrite !get_SetDomain_other by congruence.
    apply get_SetDomain_same, Lx.
  - rewrite get_SetDomain_other by congruence.
    apply get_SetDomain_same; rewrite length_SetDomain; exact Ly.
  - apply get_SetDomain_same; rewrite !length_SetDomain; exact Lya.
Qed.

Lemma annotationStep_eq c r xr yr yra b h :
  annotationStep c r xr yr yra (b, h) =
  (getAnnotationAdjustedCanvasBox c r h b xr yr yra,
   setRangeDomains (getAnnotationAdjustedCanvasBox c r h b xr yr yra)
                   xr yr yra h).
Proof. reflexivity. Qed.

Lemma length_layoutResult c r xr yr yra xf yf yfa st :
  length (snd (layoutResult c r xr yr yra xf yf yfa st)) = length (snd st).
Proof.
  destruct st as [b h]; unfold layoutResult.
  destruct (hasAxes c), (hasAnnotationSeries c);
    repeat (rewrite ?axesCycle_eq, ?annotationStep_eq; cbv zeta;
            cbn [fst snd]; rewrite ?length_setRangeDomains');
    reflexivity.
Qed.

Lemma bounds_layoutResult c r xr yr yra xf yf yfa st l :
  RMin (get (snd (layoutResult c r xr yr yra xf yf yfa st)) l)
  = RMin (get (snd st) l)
  /\ RMax (get (snd (layoutResult c r xr yr yra xf yf yfa st)) l)
     = RMax (get (snd st) l).
Proof.
  destruct st as [b h]; unfold layoutResult.
  assert (Hc : forall st',
            RMin (get (snd (axesCycle c r xr yr yra xf yf yfa st')) l)
            = RMin (get (snd st') l)
            /\ RMax (get (snd (axesCycle c r xr yr yra xf yf yfa st')) l)
               = RMax (get (snd st') l)).
  { intros [b' h']; rewrite axesCycle_eq; cbv zeta; cbn [snd].
    apply bounds_setRangeDomains. }
  assert (Ha : forall st',
            RMin (get (snd (annotationStep c r xr yr yra st')) l)
            = RMin (get (snd st') l)
            /\ RMax (get (snd (annotationStep c r xr yr yra st')) l)
               = RMax (get (snd st') l)).
  { intros [b' h']; rewrite annotationStep_eq; cbn [snd].
    apply bounds_setRangeDomains. }
  destruct (hasAxes c), (hasAnnotationSeries c); cbn [snd].
  - destruct (Ha (axesCycle c r xr yr yra xf yf yfa
                    (axesCycle c r xr yr yra xf yf yfa (b, h)))) as [-> ->].
    destruct (Hc (axesCycle c r xr yr yra xf yf yfa (b, h))) as [-> ->].
    apply Hc.
  - destruct (Hc (axesCycle c r xr yr yra xf yf yfa (b, h))) as [-> ->].
    apply Hc.
  - apply Ha.
  - auto.
Qed.

(** When the store comes from [setRangeDomains] for the box the layout
    starts with, it carries the domains of the box the layout ends with. *)
Lemma layoutResult_domains c r xr yr yra xf yf yfa b0 h0 :
  (xr < length h0)%nat -> (yr < length h0)%nat -> (yra < length h0)%nat ->
  xr <> yr -> xr <> yra -> yr <> yra ->
  let st := layoutResult c r xr yr yra xf yf yfa
              (b0, setRangeDomains b0 xr yr yra h0) in
  Domain (get (snd st) xr) = BoxWidth (fst st)
  /\ Domain (get (snd st) yr) = BoxHeight (fst st)
  /\ Domain (get (snd st) yra) = BoxHeight (fst st).
Proof.
  intros Lx Ly Lya Nxy Nxya Nyya; cbv zeta; unfold layoutResult.
  assert (Hc : forall st',
            length (snd st') = length h0 ->
            let st := axesCycle c r xr yr yra xf yf yfa st' in
            length (snd st) = length h0
            /\ Domain (get (snd st) xr) = BoxWidth (fst st)
            /\ Domain (get (snd st) yr) = BoxHeight (fst st)
            /\ Domain (get (snd st) yra) = BoxHeight (fst st)).
  { intros [b' h'] Hl; rewrite axesCycle_eq; cbv zeta; cbn [fst snd] in *.
    split; [rewrite length_setRangeDomains'; exact Hl|].
    apply setRangeDomains_domains; rewrite ?Hl; assumption. }
  assert (Ha : forall st',
            length (snd st') = length h0 ->
            let st := annotationStep c r xr yr yra st' in
            Domain (get (snd st) xr) = BoxWidth (fst st)
            /\ Domain (get (snd st) yr) = BoxHeight (fst st)
            /\ Domain (get (snd st) yra) = BoxHeight (fst st)).
  { intros [b' h'] Hl; rewrite annotationStep_eq; cbn [fst snd] in *.
    apply setRangeDomains_domains; rewrite ?Hl; assumption. }
  assert (L0 : length (snd (b0, setRangeDomains b0 xr yr yra h0)) = length h0).
  { cbn [snd]; apply length_setRangeDomains'. }
  destruct (Hc _ L0) as [L1 _].
  destruct (Hc _ L1) as [L2 D2].
  destruct (hasAxes c), (hasAnnotationSeries c).
  - apply Ha; exact L2.
  - exact D2.
  - apply Ha; exact L0.
  - cbn [fst snd]; apply setRangeDomains_domains; assumption.
Qed.

(** The ranges at the check, with separate range objects: three different
    objects of a store that [setRangeDomains] has just written. *)
Lemma rangesAtCheck_separate (c : Chart) (h : Store) :
  rangesSeparate c h ->
  let '(xr, yr, yra, h1) := rangesAtCheck c h in
  exists h0,
    h1 = setRangeDomains (getDefaultCanvasBox c) xr yr yra h0
    /\ h0 = snd (getRanges c h)
    /\ ((xr < length h0)%nat /\ (yr < length h0)%nat /\ (yra < length h0)%nat)
    /\ (xr <> yr /\ xr <> yra /\ yr <> yra).
Proof.
  intros Hsep; unfold rangesAtCheck; rewrite getRanges_eq.
  pose proof (allocRanges_separate c h Hsep) as Ha.
  destruct (allocRanges c h) as [[[xr yr] yra] h3].
  destruct Ha as [Hlen [Hdis _]].
  cbv beta iota zeta; eexists; split; [reflexivity|split; [reflexivity|]].
  cbn [snd].
  rewrite length_resolveYAlt, length_resolveY, length_resolveX; auto.
Qed.

(** X13: in a render that gets to draw, with separate range objects, the X
    range object ends with the width of the canvas box that is drawn into as
    its domain, and both Y range objects with its height, whichever layout
    passes were run. *)
Theorem Render_domains_follow_canvas_box (c : Chart) (rp : RendererProvider)
    (h : Store) r c' xr yr yra h1 xf yf yfa :
  cSeries c <> [] ->
  rp (GetWidth c) (GetHeight c) = inr r ->
  prepare c = inr c' ->
  rangesAtCheck c' h = (xr, yr, yra, h1) ->
  checkRanges c' h1 xr yr yra = None ->
  getValueFormatters c' = (xf, yf, yfa) ->
  rangesSeparate c h ->
  let canvasBox :=
    fst (layoutResult c' r xr yr yra xf yf yfa (getDefaultCanvasBox c', h1)) in
  In (EvDrawBox canvasBox (getCanvasStyle c')) (events (Render c rp h))
  /\ Domain (get (store (Render c rp h)) xr) = BoxWidth canvasBox
  /\ Domain (get (store (Render c rp h)) yr) = BoxHeight canvasBox
  /\ Domain (get (store (Render c rp h)) yra) = BoxHeight canvasBox.
Proof.
  intros Hs Hrp Hp Hr Hc Hf Hsep canvasBox.
  pose proof (rangesAtCheck_separate c' h
                (prepare_rangesSeparate c c' h Hp Hsep)) as Hsp.
  rewrite Hr in Hsp; destruct Hsp as [h0 [E1 [_ [[Lx [Ly Lya]] [Nxy [Nxya Nyya]]]]]].
  rewrite (Render_drawn c rp h r c' xr yr yra h1 xf yf yfa Hs Hrp Hp Hr Hc Hf).
  cbv zeta; simpl store; simpl events.
  split; [right; right; right; left; reflexivity|].
  subst canvasBox; rewrite E1.
  apply layoutResult_domains; assumption.
Qed.

(** X14: once [getRanges] has resolved the ranges, nothing in [Render]
    changes the bounds of a range object: the layout writes domains only. *)
Theorem Render_layout_keeps_bounds (c : Chart) (rp : RendererProvider)
    (h : Store) r c' (l : loc) :
  cSeries c <> [] ->
  rp (GetWidth c) (GetHeight c) = inr r ->
  prepare c = inr c' ->
  RMin (get (store (Render c rp h)) l) = RMin (get (snd (getRanges c' h)) l)
  /\ RMax (get (store (Render c rp h)) l) = RMax (get (snd (getRanges c' h)) l).
Proof.
  intros Hs Hrp Hp.
  destruct (rangesAtCheck c' h) as [[[xr yr] yra] h1] eqn:Hr.
  assert (Hb : RMin (get h1 l) = RMin (get (snd (getRanges c' h)) l)
               /\ RMax (get h1 l) = RMax (get (snd (getRanges c' h)) l)).
  { revert Hr; unfold rangesAtCheck.
    destruct (getRanges c' h) as [[[xr0 yr0] yra0] h0]; intros E.
    inversion E; subst; cbn [snd]; apply bounds_setRangeDomains. }
  destruct (checkRanges c' h1 xr yr yra) as [err|] eqn:Hc.
  - rewrite (Render_range_error c rp h r c' xr yr yra h1 err Hs Hrp Hp Hr Hc).
    exact Hb.
  - destruct (getValueFormatters c') as [[xf yf] yfa] eqn:Hf.
    rewrite (Render_drawn c rp h r c' xr yr yra h1 xf yf yfa Hs Hrp Hp Hr Hc Hf).
    cbv zeta; simpl store.
    destruct (bounds_layoutResult c' r xr yr yra xf yf yfa
                (getDefaultCanvasBox c', h1) l) as [-> ->].
    exact Hb.
Qed.

(** X15: with a visible X axis and no shown annotation series, the X axis
    is drawn into the canvas box of the second layout pass, but with the
    ticks that were generated before that pass constrained the box; when the
    axes have separate range objects, these are ticks for a range whose domain
    is the width of the canvas box of the first pass. *)
Theorem Render_axis_ticks_from_first_pass (c : Chart) (rp : RendererProvider)
    (h : Store) r c' xr yr yra h1 xf yf yfa :
  cSeries c <> [] ->
  rp (GetWidth c) (GetHeight c) = inr r ->
  prepare c = inr c' ->
  rangesAtCheck c' h = (xr, yr, yra, h1) ->
  checkRanges c' h1 xr yr yra = None ->
  getValueFormatters c' = (xf, yf, yfa) ->
  rangesSeparate c h ->
  Show (xStyle (cXAxis c')) = true ->
  hasAnnotationSeries c' = false ->
  let first :=
    axesCycle c' r xr yr yra xf yf yfa (getDefaultCanvasBox c', h1) in
  let second := axesCycle c' r xr yr yra xf yf yfa first in
  In (EvXAxisRender (fst second) xr (styleDefaultsAxes c')
        (XAxis_GetTicks (cXAxis c') r (get (snd first) xr)
                        (styleDefaultsAxes c') xf))
     (events (Render c rp h))
  /\ Domain (get (snd first) xr) = BoxWidth (fst first).
Proof.
  intros Hs Hrp Hp Hr Hc Hf Hsep Hshow Hann first second.
  assert (Hax : hasAxes c' = true) by (unfold hasAxes; rewrite Hshow; reflexivity).
  split.
  - rewrite (Render_drawn c rp h r c' xr yr yra h1 xf yf yfa
               Hs Hrp Hp Hr Hc Hf).
    cbv zeta; simpl events.
    unfold layoutTicks, layoutResult; rewrite Hann, Hax.
    fold first; fold second.
    do 4 right.
    apply in_or_app; left.
    unfold drawAxes, getAxesTicks; rewrite Hshow; cbn [fst snd].
    left; reflexivity.
  - pose proof (rangesAtCheck_separate c' h
                  (prepare_rangesSeparate c c' h Hp Hsep)) as Hsp.
    rewrite Hr in Hsp.
    destruct Hsp as [h0 [E1 [_ [[Lx [Ly Lya]] [Nxy [Nxya Nyya]]]]]].
    subst first; rewrite axesCycle_eq; cbv zeta; cbn [fst snd].
    apply setRangeDomains_domains;
      rewrite ?E1, ?length_setRangeDomains'; assumption.
Qed.

Lemma drawAxes_hidden (c : Chart) (b : Box) (xr yr yra : loc) xt yt yta :
  hasAxes c = false -> drawAxes c b xr yr yra xt yt yta = [].
Proof.
  unfold hasAxes, drawAxes; intros Hh.
  apply orb_false_iff in Hh; destruct Hh as [Hh Hya].
  apply orb_false_iff in Hh; destruct Hh as [Hx Hy].
  rewrite Hx, Hy, Hya; reflexivity.
Qed.

(** X16: with no visible axis and no shown annotation series, nothing is
    measured: the plot area is the chart box (the chart bounds less the
    background padding), no axis is drawn, and the range objects keep the
    domains of that box. *)
Theorem Render_without_axes (c : Chart) (rp : RendererProvider)
    (h : Store) r c' xr yr yra h1 :
  cSeries c <> [] ->
  rp (GetWidth c) (GetHeight c) = inr r ->
  prepare c = inr c' ->
  rangesAtCheck c' h = (xr, yr, yra, h1) ->
  checkRanges c' h1 xr yr yra = None ->
  hasAxes c' = false ->
  hasAnnotationSeries c' = false ->
  store (Render c rp h) = h1
  /\ events (Render c rp h) =
     [EvProvider (GetWidth c) (GetHeight c);
      EvSetDPI (GetDPI c' [DefaultDPI]);
      EvDrawBox (mkBox 0 0 (GetWidth c') (GetHeight c')) (getBackgroundStyle c');
      EvDrawBox (ChartBox c') (getCanvasStyle c')]
     ++ drawSeriesFrom c' (ChartBox c') xr yr yra 0 (cSeries c')
     ++ drawTitle c' r
     ++ drawElements c' (ChartBox c')
     ++ [EvSave].
Proof.
  intros Hs Hrp Hp Hr Hc Hax Hann.
  destruct (getValueFormatters c') as [[xf yf] yfa] eqn:Hf.
  rewrite (Render_drawn c rp h r c' xr yr yra h1 xf yf yfa Hs Hrp Hp Hr Hc Hf).
  cbv zeta; simpl store; simpl events.
  unfold layoutResult; rewrite Hax, Hann; cbn [fst snd].
  rewrite (drawAxes_hidden c' _ xr yr yra _ _ _ Hax).
  split; reflexivity.
Qed.

End LayoutStore.

(** * More worked examples *)

Section WorkedMore.

Import Examples MoreExamples.

Lemma separate_explicitXRange : rangesSeparate explicitXRange storeOneTen.
Proof.
  unfold rangesSeparate; simpl; repeat split; intros l E;
    try discriminate E; inversion E; simpl; solve [lia | discriminate].
Qed.

Lemma provider_failure_witness :
  result (@Render env plain failingProvider []) = Some (ErrForeign 1)
  /\ events (@Render env plain failingProvider []) = [EvProvider 1024 400]
  /\ store (@Render env plain failingProvider []) = [].
Proof.
  exact (@Render_provider_failure env plain failingProvider [] (ErrForeign 1)
           ltac:(discriminate) eq_refl).
Defined.

Lemma font_failure_witness :
  result (@Render noFontEnv fontless provider []) = Some (ErrForeign 2)
  /\ events (@Render noFontEnv fontless provider []) = [EvProvider 1024 400]
  /\ store (@Render noFontEnv fontless provider []) = [].
Proof.
  exact (@Render_font_failure noFontEnv fontless provider [] renderer
           (ErrForeign 2) ltac:(discriminate) eq_refl eq_refl eq_refl).
Defined.

Lemma saves_once_witness :
  exists calls,
    events (@Render env plain provider []) = calls ++ [EvSave]
    /\ Forall (fun e => isSave e = false) calls.
Proof.
  exact (proj1 (@Render_saves_once_at_the_end env plain provider [])
               renderer (forceSecondaryAxisType plain)
               ltac:(discriminate) ltac:(vm_compute; reflexivity)
               ltac:(vm_compute; reflexivity)).
Defined.

Lemma explicit_range_witness :
  get (snd (@getRanges env explicitXRange storeOneTen)) 0%nat =
  mkRange (f 1) (f 10) 0.
Proof.
  pose proof (@getRanges_explicit_range_verbatim env explicitXRange storeOneTen
                separate_explicitXRange) as W.
  vm_compute in W |- *.
  destruct W as [Wx _].
  exact (proj2 (Wx 0%nat eq_refl eq_refl eq_refl)).
Defined.

Lemma secondary_untouched_witness :
  let '(xr, yr, yra, h') := @getRanges env hiddenSecondary [] in
  get h' yra = zeroRange.
Proof.
  exact (@getRanges_secondary_needs_a_point env hiddenSecondary []
           (separate_without_ranges hiddenSecondary [] eq_refl eq_refl eq_refl)
           eq_refl eq_refl).
Defined.

Lemma allocation_witness :
  length (snd (@getRanges env explicitXRange storeOneTen)) = 3%nat.
Proof.
  pose proof (@getRanges_allocation env explicitXRange storeOneTen) as W.
  vm_compute in W |- *.
  exact (proj1 W).
Defined.

Lemma without_points_witness :
  result (@Render env noPoints provider []) =
  Some (ErrNew "Invalid (infinite or NaN) x-range delta").
Proof.
  exact (@Render_without_points env noPoints provider [] renderer
           (forceSecondaryAxisType noPoints)
           ltac:(discriminate) ltac:(vm_compute; reflexivity)
           ltac:(vm_compute; reflexivity)
           (separate_without_ranges noPoints [] eq_refl eq_refl eq_refl)
           eq_refl I eq_refl).
Defined.

Lemma y_formatters_witness :
  snd (fst (getValueFormatters formatted)) = Some fmtA
  /\ snd (getValueFormatters formatted) = Some fmtB.
Proof.
  split.
  - exact (proj1 (getValueFormatters_y formatted) eq_refl).
  - exact (proj1 (proj2 (proj2 (getValueFormatters_y formatted))) eq_refl).
Defined.

Lemma series_calls_witness :
  In (EvSeriesRender 2 zeroBox 0%nat 2%nat (@styleDefaultsSeries env plain 2))
     (@drawSeriesFrom env plain zeroBox 0%nat 1%nat 2%nat 0 (cSeries plain)).
Proof.
  apply (proj2 (@drawSeries_calls env plain zeroBox 0%nat 1%nat 2%nat _)).
  exists 2%nat, (line YAxisSecondary shownStyle).
  repeat split.
Defined.

Lemma title_centred_witness :
  exists x y,
    last (@drawTitle env plain renderer) EvSave = EvText "go" x y
    /\ -1 <= (1024 - (x + 16)) - x <= 1.
Proof.
  exact (@drawTitle_centred env plain renderer
           ltac:(simpl; lia) eq_refl
           ltac:(vm_compute; split; [discriminate|reflexivity])
           ltac:(vm_compute; split; [discriminate|reflexivity])).
Defined.

Lemma validate_witness :
  exists before s after,
    cSeries plain = before ++ s :: after
    /\ Forall (fun s' => primaryOnly s' = None) before
    /\ primaryOnly s = Some (ErrForeign 3).
Proof.
  exact (proj2 (validateSeries_first_error primaryOnly plain)
               (ErrForeign 3) eq_refl).
Defined.

Lemma domains_witness :
  Domain (get (store (@Render env plain provider [])) 0%nat) = 984
  /\ Domain (get (store (@Render env plain provider [])) 1%nat) = 370
  /\ Domain (get (store (@Render env plain provider [])) 2%nat) = 370.
Proof.
  pose proof (@Render_domains_follow_canvas_box env plain provider [] renderer
                (forceSecondaryAxisType plain) 0%nat 1%nat 2%nat
                (snd (@rangesAtCheck env (forceSecondaryAxisType plain) []))
                None None None
                ltac:(discriminate)
                ltac:(vm_compute; reflexivity) ltac:(vm_compute; reflexivity)
                ltac:(vm_compute; reflexivity) ltac:(vm_compute; reflexivity)
                ltac:(vm_compute; reflexivity)
                (separate_without_ranges plain [] eq_refl eq_refl eq_refl)) as W.
  vm_compute in W |- *. exact (proj2 W).
Defined.

Lemma layout_keeps_bounds_witness :
  RMin (get (store (@Render env plain provider [])) 1%nat) = f 0
  /\ RMax (get (store (@Render env plain provider [])) 1%nat) = f 100.
Proof.
  pose proof (@Render_layout_keeps_bounds env plain provider [] renderer
                (forceSecondaryAxisType plain) 1%nat
                ltac:(discriminate)
                ltac:(vm_compute; reflexivity)
                ltac:(vm_compute; reflexivity)) as W.
  vm_compute in W |- *. exact W.
Defined.

Lemma axis_ticks_witness :
  let c' := forceSecondaryAxisType xAxisOnly in
  let first :=
    @axesCycle env c' renderer 0%nat 1%nat 2%nat None None None
      (@getDefaultCanvasBox env c', snd (@rangesAtCheck env c' [])) in
  let second :=
    @axesCycle env c' renderer 0%nat 1%nat 2%nat None None None first in
  In (EvXAxisRender (fst second) 0%nat (@styleDefaultsAxes env c')
        (@XAxis_GetTicks env (cXAxis c') renderer (get (snd first) 0%nat)
                         (@styleDefaultsAxes env c') None))
     (events (@Render env xAxisOnly provider []))
  /\ Domain (get (snd first) 0%nat) = BoxWidth (fst first).
Proof.
  pose proof (@Render_axis_ticks_from_first_pass env xAxisOnly provider []
                renderer (forceSecondaryAxisType xAxisOnly)
                0%nat 1%nat 2%nat
                (snd (@rangesAtCheck env (forceSecondaryAxisType xAxisOnly) []))
                None None None
                ltac:(discriminate)
                ltac:(vm_compute; reflexivity) ltac:(vm_compute; reflexivity)
                ltac:(vm_compute; reflexivity) ltac:(vm_compute; reflexivity)
                ltac:(vm_compute; reflexivity)
                (separate_without_ranges xAxisOnly [] eq_refl eq_refl eq_refl)
                eq_refl eq_refl) as W.
  vm_compute in W |- *. exact W.
Defined.

Lemma without_axes_witness :
  store (@Render env explicitXRange provider storeOneTen) =
  snd (@rangesAtCheck env (forceSecondaryAxisType explicitXRange) storeOneTen)
  /\ Domain (get (store (@Render env explicitXRange provider storeOneTen))
                 0%nat) = 1014.
Proof.
  pose proof (@Render_without_axes env explicitXRange provider storeOneTen
                renderer (forceSecondaryAxisType explicitXRange)
                0%nat 1%nat 2%nat
                (snd (@rangesAtCheck env (forceSecondaryAxisType explicitXRange)
                                     storeOneTen))
                ltac:(discriminate)
                ltac:(vm_compute; reflexivity) ltac:(vm_compute; reflexivity)
                ltac:(vm_compute; reflexivity) ltac:(vm_compute; reflexivity)
                eq_refl eq_refl) as W.
  destruct W as [W _].
  vm_compute in W |- *. split; [exact W|reflexivity].
Defined.

End WorkedMore.
